(** * Appointment endpoint ([src/api/appointment.js])

    A shallow embedding of the serverless handler that lists, creates,
    reassigns and deletes appointment records, together with the properties
    of its authentication gate, its role gate and its store transitions.

    The handler is asynchronous JavaScript that talks to a document store and
    to a response object.  It is embedded as a state-and-exception monad: the
    state holds the three collections the handler touches and the calls it
    has made on [res]; an exception is a thrown JavaScript error. *)

From Stdlib Require Import String Ascii List ZArith Bool Lia QArith.
Import ListNotations.
Local Open Scope string_scope.
Local Open Scope Z_scope.

(** ** JavaScript values the handler manipulates *)

Module JS.

(** A header, cookie, body field or query parameter is a string that may be
    absent ([undefined]).  [!x] holds for [undefined] and for the empty
    string. *)
Definition truthy (x : option string) : bool :=
  match x with
  | Some s => negb (String.eqb s "")
  | None => false
  end.

Definition lower_ascii (c : ascii) : ascii :=
  let n := nat_of_ascii c in
  if (Nat.leb 65 n && Nat.leb n 90)%bool then ascii_of_nat (n + 32) else c.

Definition upper_ascii (c : ascii) : ascii :=
  let n := nat_of_ascii c in
  if (Nat.leb 97 n && Nat.leb n 122)%bool then ascii_of_nat (n - 32) else c.

(** [String.prototype.toLowerCase] and [toUpperCase] on strings of bytes:
    the ASCII letters change case, every other byte is kept. *)
Fixpoint toLowerCase (s : string) : string :=
  match s with
  | EmptyString => EmptyString
  | String c rest => String (lower_ascii c) (toLowerCase rest)
  end.

Fixpoint toUpperCase (s : string) : string :=
  match s with
  | EmptyString => EmptyString
  | String c rest => String (upper_ascii c) (toUpperCase rest)
  end.

(** [Array.prototype.includes] on an array of strings. *)
Definition includes (l : list string) (s : string) : bool :=
  existsb (String.eqb s) l.

(** The errors the code throws or meets. *)
Inductive error : Type :=
| Error (message : string)
| ReferenceError (message : string).

Definition message (e : error) : string :=
  match e with
  | Error m => m
  | ReferenceError m => m
  end.

End JS.

(** ** Data model *)

(** Modelled from the spec: the Appointment collection ([../models/appointment.js]
    and the store operations the handler calls on it are not part of the
    sources).  A document has an id, a name, the account-type category of the
    slot and a reference to the account that holds it; the collection is kept
    in the store's natural order.  Lookups, updates and deletions by id act on
    the first document with that id. *)
Module Appointment.

Record doc : Type := mk {
  _id : string;
  appointment_name : string;
  account_type : string;
  account_id : option string
}.

Definition find (c : list doc) : list doc := c.

Fixpoint findById (id : string) (c : list doc) : option doc :=
  match c with
  | [] => None
  | a :: rest => if String.eqb (_id a) id then Some a else findById id rest
  end.

(** The insert.  Neither the source nor the spec says where a new document
    falls in the natural order; it is put at the end here, the order of
    insertion. *)
Definition save (a : doc) (c : list doc) : list doc := c ++ [a].

Fixpoint updateOne (id : string) (new_account_id : string) (c : list doc)
  : list doc :=
  match c with
  | [] => []
  | a :: rest =>
      if String.eqb (_id a) id
      then mk (_id a) (appointment_name a) (account_type a)
              (Some new_account_id) :: rest
      else a :: updateOne id new_account_id rest
  end.

Fixpoint findByIdAndDelete (id : string) (c : list doc) : list doc :=
  match c with
  | [] => []
  | a :: rest =>
      if String.eqb (_id a) id then rest else a :: findByIdAndDelete id rest
  end.

End Appointment.

(** Modelled from the spec: the Account collection ([../models/users.js] is not
    part of the sources).  An account has an id, a display name, a role and
    the denormalized name of the appointment it currently holds. *)
Module User.

Record doc : Type := mk {
  _id : string;
  account_name : string;
  account_type : option string;
  appointment : option string
}.

(** [User.findById(id)]; an [undefined] id matches no document. *)
Fixpoint findById (id : option string) (c : list doc) : option doc :=
  match id, c with
  | Some i, u :: rest =>
      if String.eqb (_id u) i then Some u else findById id rest
  | _, _ => None
  end.

(** [User.updateOne({ _id: id }, { $set: { appointment: name } })]. *)
Fixpoint updateOne (id : string) (name : string) (c : list doc) : list doc :=
  match c with
  | [] => []
  | u :: rest =>
      if String.eqb (_id u) id
      then mk (_id u) (account_name u) (account_type u) (Some name) :: rest
      else u :: updateOne id name rest
  end.

End User.

(** Modelled from the spec: the consumed-token log ([../models/token.js] is not
    part of the sources), queried by exact token string. *)
Module Token.

Definition findOne (token : string) (c : list string) : bool :=
  existsb (String.eqb token) c.

End Token.

Record Store : Type := mkStore {
  appointments : list Appointment.doc;
  users : list User.doc;
  tokens : list string
}.

(** The decoded payload of a token, as the data model has it: the subject's
    account id and the expiry, a number of seconds since the epoch that need
    not be whole.  A payload has no other property; in particular
    [decoded.error] is undefined on it. *)
Record Claims : Type := mkClaims {
  id : string;
  exp : Q
}.

(** What [jwt.verify] does with a token string: it throws, or it returns a
    falsy value, or it returns the payload. *)
Inductive VerifyResult : Type :=
| VerifyThrows (message : string)
| VerifyFalsy
| Verified (decoded : Claims).

(** [jwt.verify(token, secret)] as the jsonwebtoken package carries it out on
    a token whose payload has an expiry.  The check of the structure and of
    the signature is a parameter: it fails with a reason or yields the
    payload.  The package then makes its own expiry check and throws "jwt
    expired" when [Math.floor(Date.now() / 1000) >= payload.exp]. *)
Definition jsonwebtoken_verify (signed : string -> string + Claims) (now : Z)
           (token : string) : VerifyResult :=
  match signed token with
  | inl reason => VerifyThrows reason
  | inr payload =>
      if Qle_bool (exp payload) (inject_Z (now / 1000))
      then VerifyThrows "jwt expired"
      else Verified payload
  end.

(** An element of the array that List sends: the fields of the appointment
    and, when the holder was found, the holder's display name. *)
Record Item : Type := mkItem {
  item_id : string;
  item_appointment_name : string;
  item_account_type : string;
  item_account_id : option string;
  item_account_name : option string
}.

Inductive Body : Type :=
| Message (message : string)
| Items (items : list Item)
| NoBody.

Record Response : Type := mkResponse {
  status : Z;
  body : Body
}.

(** The request, reduced to what the handler reads from it. *)
Record RequestBody : Type := mkBody {
  appointment_name : option string;
  account_type : option string;
  account_id : option string;
  appointment_id : option string
}.

Record Request : Type := mkRequest {
  method : string;
  x_route : option string;        (* req.headers['x-route'] *)
  cookie_token : option string;   (* cookie.parse(req.headers.cookie).token *)
  req_body : option RequestBody;  (* req.body *)
  query_id : option string        (* req.query?.id *)
}.

(** What [res.status(c).json(b)] evaluates to, as far as the handler looks at
    it: whether it is truthy, whether its [error] property is truthy, and its
    [id] property. *)
Record JsonValue : Type := mkJsonValue {
  json_truthy : bool;
  json_error : bool;
  json_id : option string
}.

(** Everything the handler takes from its surroundings. *)
Record Runtime : Type := mkRuntime {
  jwt_verify : string -> VerifyResult;   (* jwt.verify(token, JWT_SECRET) *)
  Date_now : Z;                          (* milliseconds since the epoch *)
  connect_ok : bool;                     (* connectToDatabase() resolves *)
  ObjectId : list Appointment.doc -> string;  (* id given to a new document *)
  json_value : JsonValue;
  json_throws_once_sent : bool           (* a second response throws *)
}.

(** [res.status(c).json(b)] returns [res] itself in Express and in the Vercel
    Node runtime, and a response object has neither an [error] nor an [id]
    property. *)
Definition res_itself : JsonValue := mkJsonValue true false None.

(** ** The monad *)

Record State : Type := mkState {
  store : Store;
  res_calls : list Response   (* the responses requested of [res], in order *)
}.

Inductive Outcome (A : Type) : Type :=
| Returned (a : A)
| Threw (e : JS.error).
Arguments Returned {A} a.
Arguments Threw {A} e.

Definition M (A : Type) : Type := State -> Outcome A * State.

Definition ret {A} (a : A) : M A := fun st => (Returned a, st).

Definition throw {A} (e : JS.error) : M A := fun st => (Threw e, st).

Definition bind {A B} (m : M A) (k : A -> M B) : M B :=
  fun st =>
    match m st with
    | (Returned a, st') => k a st'
    | (Threw e, st') => (Threw e, st')
    end.

Definition try_catch {A} (m : M A) (handler : JS.error -> M A) : M A :=
  fun st =>
    match m st with
    | (Returned a, st') => (Returned a, st')
    | (Threw e, st') => handler e st'
    end.

Notation "x <- m ;; k" := (bind m (fun x => k))
  (at level 61, m at next level, right associativity).
Notation "m ;;; k" := (bind m (fun _ => k))
  (at level 61, right associativity).

(** A read and a write of the store.  Both complete: once
    [connectToDatabase] has resolved, a store operation that rejects is not
    part of the model. *)
Definition gets {A} (f : Store -> A) : M A := fun st => (Returned (f (store st)), st).

Definition modify (f : Store -> Store) : M unit :=
  fun st => (Returned tt, mkState (f (store st)) (res_calls st)).

(** The values that [decodeJWT] and [checkAuthorization] hand back to the
    handler: [null], the decoded payload, whatever [res.status(c).json(b)]
    evaluated to, or [undefined] (a bare [return]). *)
Inductive Value : Type :=
| Null
| Undefined
| Decoded (decoded : Claims)
| ResValue.

(** ** The code *)

Section Handler.

Variable rt : Runtime.

Definition get (x : option string) : string :=
  match x with
  | Some s => s
  | None => ""
  end.

(** [!!v] *)
Definition truthy_value (v : Value) : bool :=
  match v with
  | Null | Undefined => false
  | Decoded _ => true
  | ResValue => json_truthy (json_value rt)
  end.

(** [!!v.error], for a truthy [v]; a decoded payload, being an id and an
    expiry, has no [error] property. *)
Definition error_value (v : Value) : bool :=
  match v with
  | ResValue => json_error (json_value rt)
  | _ => false
  end.

(** [v.id], for a truthy [v] *)
Definition id_value (v : Value) : option string :=
  match v with
  | Decoded decoded => Some (id decoded)
  | ResValue => json_id (json_value rt)
  | _ => None
  end.

(** [res.status(code).json(b)].  The call is recorded; on a response that
    has already been sent it throws when the runtime says so. *)
Definition res_status_json (code : Z) (b : Body) : M Value :=
  fun st =>
    let st' := mkState (store st) (res_calls st ++ [mkResponse code b]) in
    match res_calls st with
    | [] => (Returned ResValue, st')
    | _ :: _ =>
        if json_throws_once_sent rt
        then (Threw (JS.Error "Cannot set headers after they are sent to the client"), st')
        else (Returned ResValue, st')
    end.

(** [res.status(code).end()] *)
Definition res_status_end (code : Z) : M Value :=
  fun st =>
    (Returned ResValue,
     mkState (store st) (res_calls st ++ [mkResponse code NoBody])).

(** Modelled from the spec: [connectToDatabase] of [../mongoose.js] is not part
    of the sources.  It resolves when the store can be reached and throws
    otherwise. *)
Definition connectToDatabase : M unit :=
  if connect_ok rt then ret tt
  else throw (JS.Error "Database connection failed").

(** [decoded.exp < Date.now() / 1000], compared as rationals, with
    [Date.now()] in whole milliseconds. *)
Definition expired (decoded : Claims) : bool :=
  if Qlt_le_dec (exp decoded) (Date_now rt # 1000) then true else false.

(** The body of the [try] of [decodeJWT]. *)
Definition decodeJWT_try (token : option string) : M Value :=
  if negb (JS.truthy token) then throw (JS.Error "Missing authorization token")
  else
    match jwt_verify rt (get token) with
    | VerifyThrows m => throw (JS.Error m)
    | VerifyFalsy => throw (JS.Error "Invalid token")
    | Verified decoded =>
        if expired decoded then throw (JS.Error "Token expired")
        else
          used <- gets (fun s => Token.findOne (get token) (tokens s)) ;;
          if (used : bool) then throw (JS.Error "Token already used")
          else ret (Decoded decoded)
    end.

Definition decodeJWT (token : option string) (sendResponse : bool) : M Value :=
  try_catch (decodeJWT_try token)
    (fun error =>
       if sendResponse
       then res_status_json 401 (Message (JS.message error))
       else ret Null).

Definition default_allowed : list string := ["Admin"; "Officer"; "Primer"; "Boy"].

Definition checkAuthorization (tokenType : option string) (allowed : list string)
  : M Value :=
  if negb (JS.truthy tokenType)
  then res_status_json 400 (Message "Missing token type")
  else if negb (JS.includes allowed (get tokenType))
  then res_status_json 403 (Message "Invalid token type")
  else ret Null.

(** [{ ...appointment.toObject(), account_name: user.account_name,
       account_id: user._id }] *)
Definition enriched (appointment : Appointment.doc) (user : User.doc) : Item :=
  mkItem (Appointment._id appointment)
         (Appointment.appointment_name appointment)
         (Appointment.account_type appointment)
         (Some (User._id user))
         (Some (User.account_name user)).

(** An appointment pushed as it is. *)
Definition unmodified (appointment : Appointment.doc) : Item :=
  mkItem (Appointment._id appointment)
         (Appointment.appointment_name appointment)
         (Appointment.account_type appointment)
         (Appointment.account_id appointment)
         None.

(** [for (let appointment of appointments) { ... }] *)
Fixpoint for_of (appointments : list Appointment.doc)
         (updatedAppointments : list Item) : M (list Item) :=
  match appointments with
  | [] => ret updatedAppointments
  | appointment :: rest =>
      user <- gets (fun s =>
                User.findById (Appointment.account_id appointment) (users s)) ;;
      match user with
      | Some u => for_of rest (updatedAppointments ++ [enriched appointment u])
      | None => for_of rest (updatedAppointments ++ [unmodified appointment])
      end
  end.

Definition protected_names : list string :=
  ["csm"; "captain"; "dy csm"; "sec 4/5 ps"; "sec 3 ps"; "sec 2 ps"; "sec 1 ps"].

Definition no_body : RequestBody := mkBody None None None None.

(** [req.body || {}] *)
Definition body_of (req : Request) : RequestBody :=
  match req_body req with
  | Some b => b
  | None => no_body
  end.

(** [case 'GET /get_appointments'] *)
Definition get_appointments (req : Request) : M Value :=
  decodeJWT (cookie_token req) true ;;;
  appointments <- gets (fun s => Appointment.find (appointments s)) ;;
  updatedAppointments <- for_of appointments [] ;;
  res_status_json 200 (Items updatedAppointments).

(** [case 'POST /create_appointment'] *)
Definition create_appointment (req : Request) : M Value :=
  decoded <- decodeJWT (cookie_token req) true ;;
  if (negb (truthy_value decoded) || error_value decoded)%bool then ret Undefined
  else
    user <- gets (fun s => User.findById (id_value decoded) (users s)) ;;
    match user with
    | None => res_status_json 404 (Message "User not found")
    | Some user =>
        authError <- checkAuthorization (User.account_type user) ["Officer"; "Admin"] ;;
        if truthy_value authError then ret Undefined
        else
          let b := body_of req in
          if (negb (JS.truthy (appointment_name b))
              || negb (JS.truthy (account_type b))
              || negb (JS.truthy (account_id b)))%bool
          then res_status_json 400 (Message "Missing appointment details")
          else
            new_id <- gets (fun s => ObjectId rt (appointments s)) ;;
            let newAppointment :=
              Appointment.mk new_id (get (appointment_name b))
                             (get (account_type b)) (Some (get (account_id b))) in
            modify (fun s => mkStore (Appointment.save newAppointment (appointments s))
                                     (users s) (tokens s)) ;;;
            modify (fun s => mkStore (appointments s)
                                     (User.updateOne (get (account_id b))
                                                     (get (appointment_name b))
                                                     (users s))
                                     (tokens s)) ;;;
            res_status_json 201 (Message "Appointment created successfully")
    end.

(** [case 'PUT /update_appointment'] *)
Definition update_appointment (req : Request) : M Value :=
  decoded <- decodeJWT (cookie_token req) true ;;
  if (negb (truthy_value decoded) || error_value decoded)%bool then ret Undefined
  else
    user <- gets (fun s => User.findById (id_value decoded) (users s)) ;;
    match user with
    | None => res_status_json 404 (Message "User not found")
    | Some user =>
        authError <- checkAuthorization (User.account_type user) ["Officer"; "Admin"] ;;
        if truthy_value authError then ret Undefined
        else
          let b := body_of req in
          if (negb (JS.truthy (account_id b))
              || negb (JS.truthy (appointment_id b)))%bool
          then res_status_json 400 (Message "Missing appointment ID or account ID")
          else
            appointment <- gets (fun s =>
                Appointment.findById (get (appointment_id b)) (appointments s)) ;;
            match appointment with
            | None => res_status_json 404 (Message "Appointment not found")
            | Some _ =>
                modify (fun s =>
                  mkStore (Appointment.updateOne (get (appointment_id b))
                                                 (get (account_id b))
                                                 (appointments s))
                          (users s) (tokens s)) ;;;
                res_status_json 200 (Message "Appointment updated successfully")
            end
    end.

(** [case 'DELETE /delete_appointment'] *)
Definition delete_appointment (req : Request) : M Value :=
  decoded <- decodeJWT (cookie_token req) true ;;
  if (negb (truthy_value decoded) || error_value decoded)%bool then ret Undefined
  else
    user <- gets (fun s => User.findById (id_value decoded) (users s)) ;;
    match user with
    | None => res_status_json 404 (Message "User not found")
    | Some user =>
        authError <- checkAuthorization (User.account_type user) ["Officer"; "Admin"] ;;
        if truthy_value authError then ret Undefined
        else
          let appointment_id := query_id req in
          if negb (JS.truthy appointment_id)
          then res_status_json 400 (Message "Missing appointment ID")
          else
            appointment <- gets (fun s =>
                Appointment.findById (get appointment_id) (appointments s)) ;;
            match appointment with
            | None => res_status_json 404 (Message "Appointment not found")
            | Some appointment =>
                if JS.includes protected_names
                     (JS.toLowerCase (Appointment.appointment_name appointment))
                then res_status_json 403 (Message "Core appointments cannot be deleted")
                else
                  modify (fun s =>
                    mkStore (Appointment.findByIdAndDelete (get appointment_id)
                                                           (appointments s))
                            (users s) (tokens s)) ;;;
                  res_status_json 200 (Message "Appointment deleted successfully")
            end
    end.

(** [`${method.toUpperCase()} ${route}`] *)
Definition routeKey (req : Request) : string :=
  JS.toUpperCase (method req) ++ " " ++ get (x_route req).

(** [switch (routeKey) { ... }] *)
Definition switch (req : Request) : M Value :=
  if String.eqb (routeKey req) "GET /get_appointments" then get_appointments req
  else if String.eqb (routeKey req) "POST /create_appointment" then create_appointment req
  else if String.eqb (routeKey req) "PUT /update_appointment" then update_appointment req
  else if String.eqb (routeKey req) "DELETE /delete_appointment" then delete_appointment req
  else res_status_json 404 (Message "Route not found").

(** The body of the [try] of the exported handler. *)
Definition handler_try (req : Request) : M Value :=
  if negb (JS.truthy (x_route req))
  then res_status_json 401 (Message "Missing route in headers")
  else connectToDatabase ;;; switch req.

(** The [catch] of the exported handler: [console.error(err)], then the call
    [handleServerError(err.response.status)].  No [handleServerError] is
    defined or imported in the file, so evaluating the callee throws a
    [ReferenceError] before the argument is looked at. *)
Definition handler_catch (err : JS.error) : M Value :=
  throw (JS.ReferenceError "handleServerError is not defined").

(** [module.exports = async (req, res) => { ... }], after the CORS headers
    have been set. *)
Definition module_exports (req : Request) : M Value :=
  if String.eqb (method req) "OPTIONS" then res_status_end 200
  else try_catch (handler_try req) handler_catch.

(** One request served on a fresh response object. *)
Definition serve (req : Request) (s : Store) : Outcome Value * State :=
  module_exports req (mkState s []).

End Handler.

(** ** Vocabulary of the specification *)

Inductive Operation : Type := OpList | OpCreate | OpReassign | OpDelete.

Definition verb (op : Operation) : string :=
  match op with
  | OpList => "GET"
  | OpCreate => "POST"
  | OpReassign => "PUT"
  | OpDelete => "DELETE"
  end.

Definition route_name (op : Operation) : string :=
  match op with
  | OpList => "/get_appointments"
  | OpCreate => "/create_appointment"
  | OpReassign => "/update_appointment"
  | OpDelete => "/delete_appointment"
  end.

(** The request asks for operation [op]. *)
Definition requests (req : Request) (op : Operation) : Prop :=
  JS.toUpperCase (method req) = verb op /\ x_route req = Some (route_name op).

Definition operation (rt : Runtime) (op : Operation) : Request -> M Value :=
  match op with
  | OpList => get_appointments rt
  | OpCreate => create_appointment rt
  | OpReassign => update_appointment rt
  | OpDelete => delete_appointment rt
  end.

(** The ways [decodeJWT] fails, in the order of its tests: no token; the
    verifier refused the token, for the reason it gives (a bad signature, a
    token that cannot be parsed, and, with jsonwebtoken, its own expiry
    check); the test of line 16; the token is in the consumed-token log. *)
Inductive AuthFailure : Type :=
| MissingCredential
| Refused (reason : string)
| Expired
| AlreadyUsed.

Definition failure_message (f : AuthFailure) : string :=
  match f with
  | MissingCredential => "Missing authorization token"
  | Refused reason => reason
  | Expired => "Token expired"
  | AlreadyUsed => "Token already used"
  end.

(** What [decodeJWT] decides on a token, the verifier being taken as a whole:
    whatever it refuses is refused with its reason.  The current time in
    seconds is the rational [Date.now() / 1000] and the consumed-token log a
    list searched for the exact string. *)
Definition spec_validate (rt : Runtime) (log : list string) (token : option string)
  : AuthFailure + Claims :=
  match token with
  | None => inl MissingCredential
  | Some EmptyString => inl MissingCredential
  | Some t =>
      match jwt_verify rt t with
      | VerifyThrows reason => inl (Refused reason)
      | VerifyFalsy => inl (Refused "Invalid token")
      | Verified decoded =>
          if Qlt_le_dec (exp decoded) (Date_now rt # 1000)
          then inl Expired
          else if in_dec string_dec t log then inl AlreadyUsed
          else inr decoded
      end
  end.

(** The credential of [req] passes the token validator and carries
    [decoded]. *)
Record ValidCredential (rt : Runtime) (s : Store) (req : Request)
       (decoded : Claims) : Prop := mkValid {
  credential_present : exists t, cookie_token req = Some t /\ t <> "";
  credential_verified : jwt_verify rt (get (cookie_token req)) = Verified decoded;
  credential_not_expired : (Date_now rt # 1000 <= exp decoded)%Q;
  credential_not_consumed : ~ In (get (cookie_token req)) (tokens s)
}.

(** [user] is the account of the credential's subject. *)
Definition Caller (s : Store) (decoded : Claims) (user : User.doc) : Prop :=
  User.findById (Some (id decoded)) (users s) = Some user.

Definition officer_or_admin (role : option string) : Prop :=
  role = Some "Officer" \/ role = Some "Admin".

(** A field that is present: a non-empty string. *)
Definition present (x : option string) (v : string) : Prop :=
  x = Some v /\ v <> "".

(** The answer of the role gate to a role it does not let through:
    [MissingRole] (400) for an absent or empty role, [RoleNotAllowed] (403)
    otherwise. *)
Definition authorization_failure (role : option string) : Response :=
  if JS.truthy role
  then mkResponse 403 (Message "Invalid token type")
  else mkResponse 400 (Message "Missing token type").

(** A computation that performs no store write: whatever it returns or
    throws, the store it leaves is the store it found. *)
Definition preserves_store {A : Type} (m : M A) : Prop :=
  forall st, store (snd (m st)) = store st.

(** What List sends for one appointment, given the accounts of the store. *)
Definition list_item (accounts : list User.doc) (a : Appointment.doc) : Item :=
  match User.findById (Appointment.account_id a) accounts with
  | Some u => enriched a u
  | None => unmodified a
  end.

(** ** A sample deployment

    A runtime in which [res.status(c).json(b)] returns [res] and throws once a
    response has been sent, the jsonwebtoken verifier over five signed tokens,
    and a small store.  The clock stands at 1500 s; the tokens of Alice and
    Bob expire at 2000 s, the token ["old"] expired at 999 s, the token
    ["late"] expires at 1500.25 s, and the token ["spent"] has been
    consumed. *)
Module Sample.

(** The tokens that carry a good signature, with their payloads. *)
Definition signed (t : string) : string + Claims :=
  if String.eqb t "officer" then inr (mkClaims "u1" 2000)
  else if String.eqb t "boy" then inr (mkClaims "u2" 2000)
  else if String.eqb t "old" then inr (mkClaims "u1" 999)
  else if String.eqb t "late" then inr (mkClaims "u1" (6001 # 4))
  else if String.eqb t "spent" then inr (mkClaims "u1" 2000)
  else inl "invalid signature".

Definition verify : string -> VerifyResult := jsonwebtoken_verify signed 1500000.

Definition node : Runtime :=
  mkRuntime verify 1500000 true (fun _ => "a3") res_itself true.

(** The same runtime with an unreachable store. *)
Definition offline : Runtime :=
  mkRuntime verify 1500000 false (fun _ => "a3") res_itself true.

(** The same runtime at a later instant, given in milliseconds. *)
Definition at_instant (now : Z) : Runtime :=
  mkRuntime (jsonwebtoken_verify signed now) now true (fun _ => "a3")
            res_itself true.

Definition captain : Appointment.doc :=
  Appointment.mk "a1" "Captain" "Officer" (Some "u1").

Definition bugler : Appointment.doc :=
  Appointment.mk "a2" "Bugler" "Boy" (Some "u9").

Definition alice : User.doc :=
  User.mk "u1" "Alice" (Some "Officer") (Some "Captain").

Definition bob : User.doc :=
  User.mk "u2" "Bob" (Some "Boy") None.

Definition db : Store := mkStore [captain; bugler] [alice; bob] ["spent"].

Definition request (m route : string) (token : option string)
           (b : option RequestBody) (q : option string) : Request :=
  mkRequest m (Some route) token b q.

Definition list_request (token : option string) : Request :=
  request "GET" "/get_appointments" token None None.

Definition create_request (token : option string) (b : RequestBody) : Request :=
  request "POST" "/create_appointment" token (Some b) None.

Definition update_request (token : option string) (b : RequestBody) : Request :=
  request "PUT" "/update_appointment" token (Some b) None.

Definition delete_request (token : option string) (q : option string) : Request :=
  request "DELETE" "/delete_appointment" token None q.

End Sample.

(** ** Vocabulary of the properties of the whole handler *)

(** An appointment whose name, lower-cased, is one of the seven core names. *)
Definition protected (a : Appointment.doc) : Prop :=
  In (JS.toLowerCase (Appointment.appointment_name a)) protected_names.

(** How a request gets past the two tests that precede every store write,
    [!decoded || decoded.error] and [if (authError) return].  Either the
    credential validated and its subject has an account, whose role is
    Officer or Admin unless the answer of the role gate evaluates to a falsy
    value; or the credential did not validate but the value of
    [res.status(401).json(...)] is truthy, has no truthy [error], and its
    [id] is the id of an Officer's or Admin's account. *)
Inductive Gate (rt : Runtime) (req : Request) (s : Store) : Prop :=
| gate_validated (decoded : Claims) (user : User.doc) :
    spec_validate rt (tokens s) (cookie_token req) = inr decoded ->
    User.findById (Some (id decoded)) (users s) = Some user ->
    officer_or_admin (User.account_type user)
    \/ json_truthy (json_value rt) = false ->
    Gate rt req s
| gate_response (failure : AuthFailure) (user : User.doc) :
    spec_validate rt (tokens s) (cookie_token req) = inl failure ->
    json_truthy (json_value rt) = true ->
    json_error (json_value rt) = false ->
    User.findById (json_id (json_value rt)) (users s) = Some user ->
    officer_or_admin (User.account_type user) ->
    Gate rt req s.

(** The store a Create leaves. *)
Definition created (rt : Runtime) (req : Request) (s : Store) : Store :=
  mkStore
    (appointments s
       ++ [Appointment.mk (ObjectId rt (appointments s))
                          (get (appointment_name (body_of req)))
                          (get (account_type (body_of req)))
                          (Some (get (account_id (body_of req))))])
    (User.updateOne (get (account_id (body_of req)))
                    (get (appointment_name (body_of req))) (users s))
    (tokens s).

(** The store a Reassign leaves. *)
Definition reassigned (req : Request) (s : Store) : Store :=
  mkStore
    (Appointment.updateOne (get (appointment_id (body_of req)))
                           (get (account_id (body_of req))) (appointments s))
    (users s) (tokens s).

(** The store a Delete leaves. *)
Definition deleted (req : Request) (s : Store) : Store :=
  mkStore (Appointment.findByIdAndDelete (get (query_id req)) (appointments s))
          (users s) (tokens s).

(** The effects one request can have on the store, every store operation
    completing. *)
Inductive Effect (rt : Runtime) (req : Request) (s : Store) : Store -> Prop :=
| Unchanged : Effect rt req s s
| Created :
    routeKey req = "POST /create_appointment" ->
    Gate rt req s ->
    JS.truthy (appointment_name (body_of req)) = true ->
    JS.truthy (account_type (body_of req)) = true ->
    JS.truthy (account_id (body_of req)) = true ->
    Effect rt req s (created rt req s)
| Reassigned (a : Appointment.doc) :
    routeKey req = "PUT /update_appointment" ->
    Gate rt req s ->
    JS.truthy (account_id (body_of req)) = true ->
    JS.truthy (appointment_id (body_of req)) = true ->
    Appointment.findById (get (appointment_id (body_of req))) (appointments s)
    = Some a ->
    Effect rt req s (reassigned req s)
| Deleted (a : Appointment.doc) :
    routeKey req = "DELETE /delete_appointment" ->
    Gate rt req s ->
    JS.truthy (query_id req) = true ->
    Appointment.findById (get (query_id req)) (appointments s) = Some a ->
    ~ protected a ->
    Effect rt req s (deleted req s).

(** What the handler never changes of an account. *)
Definition identity (u : User.doc) : string * string * option string :=
  (User._id u, User.account_name u, User.account_type u).

(** The ids of the appointments, in the store's order. *)
Definition appointment_ids (s : Store) : list string :=
  map Appointment._id (appointments s).

(** The store after a history of requests, each served on its own response
    object and under its own runtime (the clock moves, the store may be
    unreachable for a while). *)
Fixpoint serve_all (history : list (Runtime * Request)) (s : Store) : Store :=
  match history with
  | [] => s
  | (rt, req) :: rest => serve_all rest (store (snd (serve rt req s)))
  end.

(** The statuses the handler answers with. *)
Definition answer_statuses : list Z := [200; 201; 400; 401; 403; 404].

(** What holds of the calls on [res] once a request has been served: every
    response requested has one of the six statuses, and, on a runtime whose
    [res] throws once a response has been sent, a handler that returned has
    requested one response at most. *)
Definition answered_well (rt : Runtime) (p : Outcome Value * State) : Prop :=
  Forall (fun r => In (status r) answer_statuses) (res_calls (snd p))
  /\ (json_throws_once_sent rt = true ->
      match fst p with
      | Returned _ => (length (res_calls (snd p)) <= 1)%nat
      | Threw _ => True
      end).

(** ** Lemmas on the building blocks *)

Lemma includes_In (l : list string) (s : string) :
  JS.includes l s = true <-> In s l.
Proof.
  unfold JS.includes. rewrite existsb_exists. split.
  - intros [x [Hin Heq]]. apply String.eqb_eq in Heq. now subst.
  - intros Hin. exists s. split; [assumption | apply String.eqb_refl].
Qed.

Lemma includes_not_In (l : list string) (s : string) :
  ~ In s l -> JS.includes l s = false.
Proof.
  intros Hn. destruct (JS.includes l s) eqn:E; [|reflexivity].
  apply includes_In in E. contradiction.
Qed.

Lemma findOne_In (t : string) (log : list string) :
  Token.findOne t log = true <-> In t log.
Proof. exact (includes_In log t). Qed.

Lemma truthy_present (x : option string) (v : string) :
  present x v -> JS.truthy x = true /\ get x = v.
Proof.
  intros [-> Hv]. split; [|reflexivity]. simpl.
  destruct (String.eqb_spec v ""); [contradiction | reflexivity].
Qed.

Lemma truthy_false (x : option string) :
  JS.truthy x = false <-> x = None \/ x = Some "".
Proof.
  destruct x as [s|]; simpl.
  - destruct (String.eqb_spec s ""); simpl; split; intros H.
    + right. now subst.
    + reflexivity.
    + discriminate.
    + destruct H as [H|H]; [discriminate | congruence].
  - split; auto.
Qed.

Section BuildingBlocks.

Variable rt : Runtime.

(** A request for one of the four operations reaches that operation's case
    inside the [try], provided the store can be reached. *)
Lemma module_exports_dispatch (req : Request) (op : Operation) (st : State) :
  requests req op -> connect_ok rt = true ->
  module_exports rt req st = try_catch (operation rt op req) handler_catch st.
Proof.
  intros [Hm Hr] Hc. unfold module_exports.
  assert (Hopt : String.eqb (method req) "OPTIONS" = false).
  { destruct (String.eqb_spec (method req) "OPTIONS") as [E|]; [|reflexivity].
    rewrite E in Hm. destruct op; vm_compute in Hm; discriminate Hm. }
  rewrite Hopt. unfold try_catch, handler_try, switch, routeKey, connectToDatabase.
  rewrite Hm, Hr, Hc. destruct op; reflexivity.
Qed.

Lemma decodeJWT_valid (s : Store) (req : Request) (decoded : Claims)
      (sendResponse : bool) (st : State) :
  ValidCredential rt s req decoded -> store st = s ->
  decodeJWT rt (cookie_token req) sendResponse st = (Returned (Decoded decoded), st).
Proof.
  intros [[t [Ht Hne]] Hv Hexp Hlog] <-.
  assert (Htruthy : JS.truthy (cookie_token req) = true).
  { apply (truthy_present _ t). now split. }
  assert (Hfresh : expired rt decoded = false).
  { unfold expired.
    destruct (Qlt_le_dec (exp decoded) (Date_now rt # 1000)) as [Hlt|_];
      [|reflexivity].
    exfalso. exact (Qlt_not_le _ _ Hlt Hexp). }
  assert (Hunused : Token.findOne (get (cookie_token req)) (tokens (store st)) = false).
  { destruct (Token.findOne _ _) eqn:E; [|reflexivity].
    apply findOne_In in E. contradiction. }
  unfold decodeJWT, try_catch, decodeJWT_try, bind, gets.
  rewrite Htruthy, Hv, Hfresh. cbn [negb].
  rewrite Hunused. reflexivity.
Qed.

(** The [try] of [decodeJWT] is what [spec_validate] decides. *)
Lemma decodeJWT_try_validate (token : option string) (st : State) :
  decodeJWT_try rt token st
  = match spec_validate rt (tokens (store st)) token with
    | inl failure => (Threw (JS.Error (failure_message failure)), st)
    | inr claims => (Returned (Decoded claims), st)
    end.
Proof.
  unfold decodeJWT_try, spec_validate.
  destruct token as [[|c t]|]; [reflexivity | | reflexivity].
  change (JS.truthy (Some (String c t))) with true.
  change (get (Some (String c t))) with (String c t). cbn [negb].
  destruct (jwt_verify rt (String c t)) as [reason| |decoded];
    [reflexivity | reflexivity |].
  unfold expired.
  destruct (Qlt_le_dec (exp decoded) (Date_now rt # 1000)) as [Hlt|Hle].
  - reflexivity.
  - unfold bind, gets.
    destruct (in_dec string_dec (String c t) (tokens (store st))) as [Hin|Hout].
    + apply findOne_In in Hin. rewrite Hin. reflexivity.
    + destruct (Token.findOne (String c t) (tokens (store st))) eqn:E;
        [|reflexivity].
      apply findOne_In in E. contradiction.
Qed.

(** A failed validation on a fresh response: 401 with the failure's message,
    and the value of [res.status(401).json(...)] is handed back. *)
Lemma decodeJWT_failure (token : option string) (s : Store)
      (failure : AuthFailure) :
  spec_validate rt (tokens s) token = inl failure ->
  decodeJWT rt token true (mkState s [])
  = (Returned ResValue,
     mkState s [mkResponse 401 (Message (failure_message failure))]).
Proof.
  intros H. unfold decodeJWT, try_catch.
  rewrite decodeJWT_try_validate. cbn [store]. now rewrite H.
Qed.

Lemma checkAuthorization_refuse (role : option string) (s : Store) :
  ~ officer_or_admin role ->
  checkAuthorization rt role ["Officer"; "Admin"] (mkState s [])
  = (Returned ResValue, mkState s [authorization_failure role]).
Proof.
  intros Hrole. unfold checkAuthorization, authorization_failure.
  destruct (JS.truthy role) eqn:Htruthy; cbn [negb]; [|reflexivity].
  rewrite includes_not_In; [reflexivity|].
  destruct role as [r|]; [|discriminate].
  simpl. intros [E | [E | []]]; apply Hrole; [left | right]; now rewrite E.
Qed.

Lemma checkAuthorization_pass (role : option string) (st : State) :
  officer_or_admin role ->
  checkAuthorization rt role ["Officer"; "Admin"] st = (Returned Null, st).
Proof. intros [-> | ->]; reflexivity. Qed.

(** The enrichment loop only reads: it appends one item per appointment, in
    order, and leaves the state alone. *)
Lemma for_of_map (l : list Appointment.doc) (acc : list Item) (st : State) :
  for_of l acc st = (Returned (acc ++ map (list_item (users (store st))) l)%list, st).
Proof.
  revert acc. induction l as [|a l IH]; intros acc; simpl.
  - unfold ret. now rewrite app_nil_r.
  - unfold bind, gets, list_item at 1.
    destruct (User.findById (Appointment.account_id a) (users (store st)));
      rewrite IH, <- app_assoc; reflexivity.
Qed.

End BuildingBlocks.

(** *** Computations that leave the store alone *)

Section Frame.

Variable rt : Runtime.

Lemma preserves_ret {A} (a : A) : preserves_store (ret a).
Proof. intros st. reflexivity. Qed.

Lemma preserves_throw {A} (e : JS.error) : preserves_store (@throw A e).
Proof. intros st. reflexivity. Qed.

Lemma preserves_gets {A} (f : Store -> A) : preserves_store (gets f).
Proof. intros st. reflexivity. Qed.

Lemma preserves_bind {A B} (m : M A) (k : A -> M B) :
  preserves_store m -> (forall a, preserves_store (k a)) ->
  preserves_store (bind m k).
Proof.
  intros Hm Hk st. unfold bind. specialize (Hm st).
  destruct (m st) as [[a|e] st']; simpl in *.
  - now rewrite Hk.
  - exact Hm.
Qed.

Lemma preserves_try_catch {A} (m : M A) (h : JS.error -> M A) :
  preserves_store m -> (forall e, preserves_store (h e)) ->
  preserves_store (try_catch m h).
Proof.
  intros Hm Hh st. unfold try_catch. specialize (Hm st).
  destruct (m st) as [[a|e] st']; simpl in *.
  - exact Hm.
  - now rewrite Hh.
Qed.

Lemma preserves_res_status_json (code : Z) (b : Body) :
  preserves_store (res_status_json rt code b).
Proof.
  intros st. unfold res_status_json.
  destruct (res_calls st); [reflexivity|].
  destruct (json_throws_once_sent rt); reflexivity.
Qed.

Lemma preserves_decodeJWT (token : option string) (sendResponse : bool) :
  preserves_store (decodeJWT rt token sendResponse).
Proof.
  unfold decodeJWT. apply preserves_try_catch.
  - intros st. rewrite decodeJWT_try_validate.
    destruct (spec_validate rt (tokens (store st)) token); reflexivity.
  - intros e. destruct sendResponse;
      [apply preserves_res_status_json | apply preserves_ret].
Qed.

Lemma preserves_checkAuthorization (role : option string) (allowed : list string) :
  preserves_store (checkAuthorization rt role allowed).
Proof.
  unfold checkAuthorization.
  destruct (negb (JS.truthy role)); [apply preserves_res_status_json|].
  destruct (negb (JS.includes allowed (get role)));
    [apply preserves_res_status_json | apply preserves_ret].
Qed.

Lemma preserves_handler_catch (e : JS.error) : preserves_store (handler_catch e).
Proof. apply preserves_throw. Qed.

End Frame.

(** One step of a proof that a computation leaves the store alone. *)
Ltac frame_step :=
  first
    [ apply preserves_ret
    | apply preserves_throw
    | apply preserves_gets
    | apply preserves_res_status_json
    | apply preserves_decodeJWT
    | apply preserves_checkAuthorization
    | apply preserves_bind; [|intros ?]
    | match goal with
      | |- preserves_store (if ?c then _ else _) => destruct c eqn:?
      | |- preserves_store (match ?x with _ => _ end) => destruct x eqn:?
      end ].

(** Evaluation of the tests on values and of the state projections, leaving
    the store operations folded. *)
Ltac js :=
  cbn [truthy_value error_value id_value negb orb andb store res_calls
       appointments users tokens].

(** ** Lemmas on the store operations *)

Lemma Appointment_findById_id (i : string) (c : list Appointment.doc)
      (a : Appointment.doc) :
  Appointment.findById i c = Some a -> Appointment._id a = i.
Proof.
  induction c as [|x c IH]; simpl; [discriminate|].
  destruct (String.eqb_spec (Appointment._id x) i) as [E|_]; [|exact IH].
  intros [= <-]. exact E.
Qed.

(** A resolved id splits the collection around the first document that
    carries it. *)
Lemma Appointment_findById_split (i : string) (c : list Appointment.doc)
      (a : Appointment.doc) :
  Appointment.findById i c = Some a ->
  exists before after,
    c = (before ++ a :: after)%list /\ Appointment.findById i before = None.
Proof.
  induction c as [|x c IH]; simpl; [discriminate|].
  destruct (String.eqb (Appointment._id x) i) eqn:E.
  - intros [= <-]. exists [], c. split; reflexivity.
  - intros H. destruct (IH H) as [before [after [-> Hb]]].
    exists (x :: before), after. split; [reflexivity|]. simpl. now rewrite E.
Qed.

Lemma Appointment_findByIdAndDelete_split (i : string)
      (before after : list Appointment.doc) (a : Appointment.doc) :
  Appointment.findById i before = None -> Appointment._id a = i ->
  Appointment.findByIdAndDelete i (before ++ a :: after) = (before ++ after)%list.
Proof.
  intros Hb Ha. induction before as [|x before IH]; simpl in *.
  - rewrite Ha, String.eqb_refl. reflexivity.
  - destruct (String.eqb (Appointment._id x) i); [discriminate|].
    now rewrite IH.
Qed.

Lemma Appointment_updateOne_split (i v : string)
      (before after : list Appointment.doc) (a : Appointment.doc) :
  Appointment.findById i before = None -> Appointment._id a = i ->
  Appointment.updateOne i v (before ++ a :: after)
  = (before
       ++ Appointment.mk (Appointment._id a) (Appointment.appointment_name a)
                         (Appointment.account_type a) (Some v) :: after)%list.
Proof.
  intros Hb Ha. induction before as [|x before IH]; simpl in *.
  - rewrite Ha, String.eqb_refl. reflexivity.
  - destruct (String.eqb (Appointment._id x) i); [discriminate|].
    now rewrite IH.
Qed.

Lemma Appointment_findById_updateOne (i v : string) (c : list Appointment.doc)
      (a : Appointment.doc) :
  Appointment.findById i c = Some a ->
  Appointment.findById i (Appointment.updateOne i v c)
  = Some (Appointment.mk (Appointment._id a) (Appointment.appointment_name a)
                         (Appointment.account_type a) (Some v)).
Proof.
  induction c as [|x c IH]; simpl; [discriminate|].
  destruct (String.eqb (Appointment._id x) i) eqn:E; simpl.
  - intros [= <-]. now rewrite E.
  - intros H. rewrite E. exact (IH H).
Qed.

Lemma User_findById_undefined (c : list User.doc) : User.findById None c = None.
Proof. destruct c; reflexivity. Qed.

Lemma User_findById_updateOne (i name : string) (c : list User.doc) (u : User.doc) :
  User.findById (Some i) c = Some u ->
  User.findById (Some i) (User.updateOne i name c)
  = Some (User.mk (User._id u) (User.account_name u) (User.account_type u)
                  (Some name)).
Proof.
  induction c as [|x c IH]; simpl; [discriminate|].
  destruct (String.eqb (User._id x) i) eqn:E; simpl.
  - intros [= <-]. now rewrite E.
  - intros H. rewrite E. exact (IH H).
Qed.

(** ** The protected appointments (C1) *)

(** C1.  A Delete request with a valid Officer or Admin credential, whose
    appointment id resolves to an appointment whose lower-cased name is one of
    the seven protected names, is answered 403 "Core appointments cannot be
    deleted", and the store is left as it was: the appointment still resolves
    afterwards. *)
Theorem delete_protected_appointment_refused
        (rt : Runtime) (s : Store) (req : Request) (decoded : Claims)
        (user : User.doc) (aid : string) (appointment : Appointment.doc) :
  requests req OpDelete -> connect_ok rt = true ->
  ValidCredential rt s req decoded -> Caller s decoded user ->
  officer_or_admin (User.account_type user) ->
  present (query_id req) aid ->
  Appointment.findById aid (appointments s) = Some appointment ->
  In (JS.toLowerCase (Appointment.appointment_name appointment)) protected_names ->
  serve rt req s
  = (Returned ResValue,
     mkState s [mkResponse 403 (Message "Core appointments cannot be deleted")])
  /\ Appointment.findById aid (appointments (store (snd (serve rt req s))))
     = Some appointment.
Proof.
  intros Hreq Hconn Hcred Hcaller Hrole Hid Hfind Hprot.
  destruct (truthy_present _ _ Hid) as [Htruthy Hget].
  apply includes_In in Hprot.
  assert (Hrun : serve rt req s
                 = (Returned ResValue,
                    mkState s [mkResponse 403
                                 (Message "Core appointments cannot be deleted")])).
  { unfold serve. rewrite (module_exports_dispatch rt req OpDelete) by assumption.
    unfold try_catch, operation, delete_appointment, bind.
    rewrite (decodeJWT_valid rt s req decoded) by (assumption || reflexivity).
    unfold gets. js. rewrite Hcaller, (checkAuthorization_pass rt _ _ Hrole).
    js. rewrite Htruthy, Hget. js. rewrite Hfind, Hprot. reflexivity. }
  split; [exact Hrun|]. rewrite Hrun. exact Hfind.
Qed.

Ltac sample_credential t :=
  constructor;
  [ exists t; split; [reflexivity | discriminate]
  | reflexivity
  | vm_compute; discriminate
  | simpl; intuition discriminate ].

Lemma delete_protected_appointment_refused_witness :
  serve Sample.node (Sample.delete_request (Some "officer") (Some "a1")) Sample.db
  = (Returned ResValue,
     mkState Sample.db
             [mkResponse 403 (Message "Core appointments cannot be deleted")])
  /\ Appointment.findById "a1"
       (appointments
          (store (snd (serve Sample.node
                             (Sample.delete_request (Some "officer") (Some "a1"))
                             Sample.db))))
     = Some Sample.captain.
Proof.
  apply (delete_protected_appointment_refused
           Sample.node Sample.db
           (Sample.delete_request (Some "officer") (Some "a1"))
           (mkClaims "u1" 2000) Sample.alice "a1" Sample.captain).
  - split; reflexivity.
  - reflexivity.
  - sample_credential "officer".
  - reflexivity.
  - left; reflexivity.
  - split; [reflexivity | discriminate].
  - reflexivity.
  - simpl; auto.
Defined.

(** The protected set is matched whatever the case of the stored name. *)
Example protected_whatever_the_case :
  map (fun name => JS.includes protected_names (JS.toLowerCase name))
      ["Captain"; "CAPTAIN"; "captain"; "Sec 4/5 PS"; "Dy CSM"; "Bugler"]
  = [true; true; true; true; true; false].
Proof. reflexivity. Qed.

(** ** The token validator (C3) *)





(** The answers to the sample tokens at 1500 s: no token, a forged one, one
    that expired long ago, a consumed one, one that expires within the
    current second, and a good one. *)
Example answers_to_the_sample_tokens :
  map (fun token =>
         res_calls (snd (decodeJWT Sample.node token true (mkState Sample.db []))))
      [None; Some "forged"; Some "old"; Some "spent"; Some "late"; Some "officer"]
  = [[mkResponse 401 (Message "Missing authorization token")];
     [mkResponse 401 (Message "invalid signature")];
     [mkResponse 401 (Message "jwt expired")];
     [mkResponse 401 (Message "Token already used")];
     []; []].
Proof. reflexivity. Qed.

(** The test of line 16 decides within the second of the expiry only: the
    token that expires at 1500.25 s is accepted at 1500.25 s, answered "Token
    expired" at 1500.5 s, and answered "jwt expired" from 1501 s on. *)
Example expiry_within_the_second :
  map (fun now =>
         res_calls (snd (decodeJWT (Sample.at_instant now) (Some "late") true
                                   (mkState Sample.db []))))
      [1500250; 1500500; 1501000]
  = [[];
     [mkResponse 401 (Message "Token expired")];
     [mkResponse 401 (Message "jwt expired")]].
Proof. reflexivity. Qed.

(** ** The role gate (C4) *)

(** C4.  On an authenticated Create, Reassign or Delete request, where
    [res.status(c).json(b)] evaluates to a truthy value: a caller whose role
    is neither Officer nor Admin (Primer and Boy among them) is answered with
    an authorization failure, 403 "Invalid token type", or 400 "Missing token
    type" when the role is absent or empty, and the store is left as it was;
    for a caller whose role is Officer or Admin the gate lets the request
    through without answering. *)
Theorem role_gate_on_mutations
        (rt : Runtime) (s : Store) (req : Request) (op : Operation)
        (decoded : Claims) (user : User.doc) :
  requests req op -> op <> OpList -> connect_ok rt = true ->
  ValidCredential rt s req decoded -> Caller s decoded user ->
  json_truthy (json_value rt) = true ->
  (~ officer_or_admin (User.account_type user) ->
   serve rt req s
   = (Returned Undefined,
      mkState s [authorization_failure (User.account_type user)]))
  /\ (JS.truthy (User.account_type user) = false ->
      authorization_failure (User.account_type user)
      = mkResponse 400 (Message "Missing token type"))
  /\ (In (User.account_type user) [Some "Primer"; Some "Boy"] ->
      authorization_failure (User.account_type user)
      = mkResponse 403 (Message "Invalid token type"))
  /\ (officer_or_admin (User.account_type user) ->
      checkAuthorization rt (User.account_type user) ["Officer"; "Admin"]
                         (mkState s [])
      = (Returned Null, mkState s [])).
Proof.
  intros Hreq Hop Hconn Hcred Hcaller Hjson. repeat split.
  - intros Hrole. unfold serve.
    rewrite (module_exports_dispatch rt req op) by assumption.
    destruct op; [contradiction | | |];
      unfold try_catch, operation, create_appointment, update_appointment,
             delete_appointment, bind;
      rewrite (decodeJWT_valid rt s req decoded) by (assumption || reflexivity);
      unfold gets; js; rewrite Hcaller, (checkAuthorization_refuse rt _ _ Hrole);
      js; rewrite Hjson; reflexivity.
  - intros Hrole. unfold authorization_failure. now rewrite Hrole.
  - intros [<- | [<- | []]]; reflexivity.
  - intros Hrole. now apply checkAuthorization_pass.
Qed.

Lemma role_gate_on_mutations_witness :
  serve Sample.node (Sample.delete_request (Some "boy") (Some "a2")) Sample.db
  = (Returned Undefined,
     mkState Sample.db [mkResponse 403 (Message "Invalid token type")]).
Proof.
  apply (role_gate_on_mutations
           Sample.node Sample.db
           (Sample.delete_request (Some "boy") (Some "a2")) OpDelete
           (mkClaims "u2" 2000) Sample.bob).
  - split; reflexivity.
  - discriminate.
  - reflexivity.
  - sample_credential "boy".
  - reflexivity.
  - reflexivity.
  - intros [H | H]; discriminate H.
Defined.

(** ** Create (C5, C6) *)

(** C5.  A Create request with a valid Officer or Admin credential and the
    three fields present is answered 201; the store gains one appointment, at
    the end of the collection, made of the three submitted values, and the
    account the submitted account id resolves to then holds the submitted
    appointment name in its denormalized field. *)
Theorem create_appointment_inserts_and_denormalizes
        (rt : Runtime) (s : Store) (req : Request) (decoded : Claims)
        (user : User.doc) (b : RequestBody) (name type account : string) :
  requests req OpCreate -> connect_ok rt = true ->
  ValidCredential rt s req decoded -> Caller s decoded user ->
  officer_or_admin (User.account_type user) ->
  req_body req = Some b ->
  present (appointment_name b) name -> present (account_type b) type ->
  present (account_id b) account ->
  serve rt req s
  = (Returned ResValue,
     mkState
       (mkStore
          (appointments s
             ++ [Appointment.mk (ObjectId rt (appointments s)) name type
                                (Some account)])
          (User.updateOne account name (users s))
          (tokens s))
       [mkResponse 201 (Message "Appointment created successfully")])
  /\ (forall target,
         User.findById (Some account) (users s) = Some target ->
         User.findById (Some account) (users (store (snd (serve rt req s))))
         = Some (User.mk (User._id target) (User.account_name target)
                         (User.account_type target) (Some name))).
Proof.
  intros Hreq Hconn Hcred Hcaller Hrole Hbody Hname Htype Haccount.
  destruct (truthy_present _ _ Hname) as [Hn1 Hn2].
  destruct (truthy_present _ _ Htype) as [Ht1 Ht2].
  destruct (truthy_present _ _ Haccount) as [Ha1 Ha2].
  assert (Hrun : serve rt req s
    = (Returned ResValue,
       mkState
         (mkStore
            (appointments s
               ++ [Appointment.mk (ObjectId rt (appointments s)) name type
                                  (Some account)])
            (User.updateOne account name (users s))
            (tokens s))
         [mkResponse 201 (Message "Appointment created successfully")])).
  { unfold serve. rewrite (module_exports_dispatch rt req OpCreate) by assumption.
    unfold try_catch, operation, create_appointment, bind.
    rewrite (decodeJWT_valid rt s req decoded) by (assumption || reflexivity).
    unfold gets. js. rewrite Hcaller, (checkAuthorization_pass rt _ _ Hrole).
    js. unfold body_of. rewrite Hbody, Hn1, Ht1, Ha1, Hn2, Ht2, Ha2. js.
    reflexivity. }
  split; [exact Hrun|].
  intros target Htarget. rewrite Hrun. js.
  now apply User_findById_updateOne.
Qed.

Lemma create_appointment_inserts_and_denormalizes_witness :
  serve Sample.node
        (Sample.create_request (Some "officer")
           (mkBody (Some "Sec 1 PS") (Some "Boy") (Some "u2") None))
        Sample.db
  = (Returned ResValue,
     mkState
       (mkStore
          [Sample.captain; Sample.bugler;
           Appointment.mk "a3" "Sec 1 PS" "Boy" (Some "u2")]
          [Sample.alice; User.mk "u2" "Bob" (Some "Boy") (Some "Sec 1 PS")]
          ["spent"])
       [mkResponse 201 (Message "Appointment created successfully")]).
Proof.
  apply (create_appointment_inserts_and_denormalizes
           Sample.node Sample.db
           (Sample.create_request (Some "officer")
              (mkBody (Some "Sec 1 PS") (Some "Boy") (Some "u2") None))
           (mkClaims "u1" 2000) Sample.alice
           (mkBody (Some "Sec 1 PS") (Some "Boy") (Some "u2") None)
           "Sec 1 PS" "Boy" "u2").
  - split; reflexivity.
  - reflexivity.
  - sample_credential "officer".
  - reflexivity.
  - left; reflexivity.
  - reflexivity.
  - split; [reflexivity | discriminate].
  - split; [reflexivity | discriminate].
  - split; [reflexivity | discriminate].
Defined.

(** A Create request with no credential and no field, for comparison: the
    credential is tested before the fields, so the answer is 401; the sample
    runtime returns [res] from [json], so the handler goes on to a second
    response, 404, which throws.  The store is left as it was. *)
Example create_with_missing_field_unauthenticated :
  requests (Sample.create_request None no_body) OpCreate
  /\ JS.truthy (appointment_name (body_of (Sample.create_request None no_body)))
     = false
  /\ serve Sample.node (Sample.create_request None no_body) Sample.db
     = (Threw (JS.ReferenceError "handleServerError is not defined"),
        mkState Sample.db
                [mkResponse 401 (Message "Missing authorization token");
                 mkResponse 404 (Message "User not found")])
  /\ ~ In (mkResponse 400 (Message "Missing appointment details"))
          (res_calls (snd (serve Sample.node
                                 (Sample.create_request None no_body)
                                 Sample.db))).
Proof.
  repeat split.
  change (~ In (mkResponse 400 (Message "Missing appointment details"))
             [mkResponse 401 (Message "Missing authorization token");
              mkResponse 404 (Message "User not found")]).
  simpl. intuition discriminate.
Qed.

(** C6.  A Create request in which one of the three fields is missing or
    empty performs no store write, whoever sends it: no appointment is
    inserted and no account is modified.  Once it has passed the credential
    test and the role test, which come first, it is answered 400 "Missing
    appointment details". *)
Theorem create_with_missing_field_writes_nothing
        (rt : Runtime) (s : Store) (req : Request) :
  requests req OpCreate -> connect_ok rt = true ->
  JS.truthy (appointment_name (body_of req)) = false
  \/ JS.truthy (account_type (body_of req)) = false
  \/ JS.truthy (account_id (body_of req)) = false ->
  store (snd (serve rt req s)) = s
  /\ (forall decoded user,
         ValidCredential rt s req decoded -> Caller s decoded user ->
         officer_or_admin (User.account_type user) ->
         serve rt req s
         = (Returned ResValue,
            mkState s [mkResponse 400 (Message "Missing appointment details")])).
Proof.
  intros Hreq Hconn Hmissing.
  assert (Hcheck : (negb (JS.truthy (appointment_name (body_of req)))
                    || negb (JS.truthy (account_type (body_of req)))
                    || negb (JS.truthy (account_id (body_of req))))%bool = true).
  { destruct Hmissing as [H | [H | H]]; rewrite H;
      repeat match goal with
             | |- context [JS.truthy ?x] => destruct (JS.truthy x)
             end; reflexivity. }
  split.
  - unfold serve. rewrite (module_exports_dispatch rt req OpCreate) by assumption.
    change s with (store (mkState s [])) at 2.
    generalize (mkState s []). change (preserves_store
      (try_catch (operation rt OpCreate req) handler_catch)).
    apply preserves_try_catch; [|apply preserves_handler_catch].
    unfold operation, create_appointment. rewrite Hcheck.
    repeat frame_step.
  - intros decoded user Hcred Hcaller Hrole. unfold serve.
    rewrite (module_exports_dispatch rt req OpCreate) by assumption.
    unfold try_catch, operation, create_appointment, bind.
    rewrite (decodeJWT_valid rt s req decoded) by (assumption || reflexivity).
    unfold gets. js. rewrite Hcaller, (checkAuthorization_pass rt _ _ Hrole).
    js. rewrite Hcheck. reflexivity.
Qed.

Lemma create_with_missing_field_writes_nothing_witness :
  store (snd (serve Sample.node
                    (Sample.create_request (Some "officer")
                       (mkBody (Some "Sec 1 PS") (Some "") (Some "u2") None))
                    Sample.db))
  = Sample.db
  /\ serve Sample.node
           (Sample.create_request (Some "officer")
              (mkBody (Some "Sec 1 PS") (Some "") (Some "u2") None))
           Sample.db
     = (Returned ResValue,
        mkState Sample.db
                [mkResponse 400 (Message "Missing appointment details")]).
Proof.
  destruct (create_with_missing_field_writes_nothing
              Sample.node Sample.db
              (Sample.create_request (Some "officer")
                 (mkBody (Some "Sec 1 PS") (Some "") (Some "u2") None)))
    as [Hstore Hanswer].
  - split; reflexivity.
  - reflexivity.
  - right; left; reflexivity.
  - split; [exact Hstore|].
    apply (Hanswer (mkClaims "u1" 2000) Sample.alice).
    + sample_credential "officer".
    + reflexivity.
    + left; reflexivity.
Defined.

(** ** Reassign (C7) *)

(** C7.  A Reassign request that succeeds is answered 200 and sets the
    account id of the resolved appointment to the submitted value, the other
    fields and the other appointments staying as they were; the accounts are
    left untouched, so the denormalized appointment field of the old holder
    and of the new one are what they were. *)
Theorem reassign_changes_the_holder_only
        (rt : Runtime) (s : Store) (req : Request) (decoded : Claims)
        (user : User.doc) (b : RequestBody) (account aid : string)
        (appointment : Appointment.doc) :
  requests req OpReassign -> connect_ok rt = true ->
  ValidCredential rt s req decoded -> Caller s decoded user ->
  officer_or_admin (User.account_type user) ->
  req_body req = Some b ->
  present (account_id b) account -> present (appointment_id b) aid ->
  Appointment.findById aid (appointments s) = Some appointment ->
  serve rt req s
  = (Returned ResValue,
     mkState
       (mkStore (Appointment.updateOne aid account (appointments s))
                (users s) (tokens s))
       [mkResponse 200 (Message "Appointment updated successfully")])
  /\ Appointment.findById aid (appointments (store (snd (serve rt req s))))
     = Some (Appointment.mk aid (Appointment.appointment_name appointment)
                            (Appointment.account_type appointment)
                            (Some account))
  /\ (exists before after,
         appointments s = (before ++ appointment :: after)%list
         /\ appointments (store (snd (serve rt req s)))
            = (before
                 ++ Appointment.mk aid (Appointment.appointment_name appointment)
                                   (Appointment.account_type appointment)
                                   (Some account) :: after)%list)
  /\ users (store (snd (serve rt req s))) = users s
  /\ (forall holder,
         option_map User.appointment
           (User.findById holder (users (store (snd (serve rt req s)))))
         = option_map User.appointment (User.findById holder (users s))).
Proof.
  intros Hreq Hconn Hcred Hcaller Hrole Hbody Haccount Haid Hfind.
  destruct (truthy_present _ _ Haccount) as [Ha1 Ha2].
  destruct (truthy_present _ _ Haid) as [Hi1 Hi2].
  assert (Hrun : serve rt req s
    = (Returned ResValue,
       mkState
         (mkStore (Appointment.updateOne aid account (appointments s))
                  (users s) (tokens s))
         [mkResponse 200 (Message "Appointment updated successfully")])).
  { unfold serve. rewrite (module_exports_dispatch rt req OpReassign) by assumption.
    unfold try_catch, operation, update_appointment, bind.
    rewrite (decodeJWT_valid rt s req decoded) by (assumption || reflexivity).
    unfold gets. js. rewrite Hcaller, (checkAuthorization_pass rt _ _ Hrole).
    js. unfold body_of. rewrite Hbody, Ha1, Hi1, Ha2, Hi2. js.
    rewrite Hfind. reflexivity. }
  pose proof (Appointment_findById_id _ _ _ Hfind) as Hid.
  rewrite Hrun. cbn [snd]. js. repeat split.
  - rewrite (Appointment_findById_updateOne _ _ _ _ Hfind), Hid. reflexivity.
  - destruct (Appointment_findById_split _ _ _ Hfind) as [before [after [Hc Hb]]].
    exists before, after. split; [exact Hc|].
    rewrite Hc, (Appointment_updateOne_split _ _ _ _ _ Hb Hid), Hid. reflexivity.
Qed.

Lemma reassign_changes_the_holder_only_witness :
  serve Sample.node
        (Sample.update_request (Some "officer")
           (mkBody None None (Some "u2") (Some "a2")))
        Sample.db
  = (Returned ResValue,
     mkState
       (mkStore [Sample.captain; Appointment.mk "a2" "Bugler" "Boy" (Some "u2")]
                [Sample.alice; Sample.bob] ["spent"])
       [mkResponse 200 (Message "Appointment updated successfully")]).
Proof.
  apply (reassign_changes_the_holder_only
           Sample.node Sample.db
           (Sample.update_request (Some "officer")
              (mkBody None None (Some "u2") (Some "a2")))
           (mkClaims "u1" 2000) Sample.alice
           (mkBody None None (Some "u2") (Some "a2")) "u2" "a2" Sample.bugler).
  - split; reflexivity.
  - reflexivity.
  - sample_credential "officer".
  - reflexivity.
  - left; reflexivity.
  - reflexivity.
  - split; [reflexivity | discriminate].
  - split; [reflexivity | discriminate].
  - reflexivity.
Defined.

(** ** List (C8) *)

(** C8.  A List request with a valid credential is answered 200 with one item
    per appointment of the store, in the store's order: the appointment
    together with the display name and the id of the account its account id
    resolves to, or the appointment as it is when that account does not
    exist.  The store is left as it was. *)
Theorem list_returns_every_appointment
        (rt : Runtime) (s : Store) (req : Request) (decoded : Claims) :
  requests req OpList -> connect_ok rt = true ->
  ValidCredential rt s req decoded ->
  exists items,
    serve rt req s = (Returned ResValue, mkState s [mkResponse 200 (Items items)])
    /\ Forall2
         (fun a item =>
            match User.findById (Appointment.account_id a) (users s) with
            | Some holder =>
                item = mkItem (Appointment._id a) (Appointment.appointment_name a)
                              (Appointment.account_type a)
                              (Some (User._id holder))
                              (Some (User.account_name holder))
            | None =>
                item = mkItem (Appointment._id a) (Appointment.appointment_name a)
                              (Appointment.account_type a)
                              (Appointment.account_id a) None
            end)
         (appointments s) items.
Proof.
  intros Hreq Hconn Hcred.
  exists (map (list_item (users s)) (appointments s)). split.
  - unfold serve. rewrite (module_exports_dispatch rt req OpList) by assumption.
    unfold try_catch, operation, get_appointments, bind.
    rewrite (decodeJWT_valid rt s req decoded) by (assumption || reflexivity).
    unfold gets, Appointment.find. js. rewrite for_of_map. reflexivity.
  - induction (appointments s) as [|a l IH]; simpl; constructor; [|exact IH].
    unfold list_item.
    destruct (User.findById (Appointment.account_id a) (users s)); reflexivity.
Qed.

Lemma list_returns_every_appointment_witness :
  exists items,
    serve Sample.node (Sample.list_request (Some "officer")) Sample.db
    = (Returned ResValue, mkState Sample.db [mkResponse 200 (Items items)])
    /\ Forall2
         (fun a item =>
            match User.findById (Appointment.account_id a) (users Sample.db) with
            | Some holder =>
                item = mkItem (Appointment._id a) (Appointment.appointment_name a)
                              (Appointment.account_type a)
                              (Some (User._id holder))
                              (Some (User.account_name holder))
            | None =>
                item = mkItem (Appointment._id a) (Appointment.appointment_name a)
                              (Appointment.account_type a)
                              (Appointment.account_id a) None
            end)
         (appointments Sample.db) items.
Proof.
  apply (list_returns_every_appointment
           Sample.node Sample.db (Sample.list_request (Some "officer"))
           (mkClaims "u1" 2000)).
  - split; reflexivity.
  - reflexivity.
  - sample_credential "officer".
Defined.

(** In the sample store the captain's holder exists and the bugler's does not:
    the first item is enriched, the second is the appointment as it is. *)
Example list_sample :
  serve Sample.node (Sample.list_request (Some "officer")) Sample.db
  = (Returned ResValue,
     mkState Sample.db
       [mkResponse 200
          (Items [mkItem "a1" "Captain" "Officer" (Some "u1") (Some "Alice");
                  mkItem "a2" "Bugler" "Boy" (Some "u9") None])]).
Proof. reflexivity. Qed.

(** ** Delete (C10) *)

(** C10.  A Delete request that succeeds on an appointment that is not
    protected is answered 200 and removes that appointment and nothing else;
    the accounts are left untouched, so an account that held the deleted
    appointment's name in its denormalized field still holds it. *)
Theorem delete_removes_the_appointment_only
        (rt : Runtime) (s : Store) (req : Request) (decoded : Claims)
        (user : User.doc) (aid : string) (appointment : Appointment.doc) :
  requests req OpDelete -> connect_ok rt = true ->
  ValidCredential rt s req decoded -> Caller s decoded user ->
  officer_or_admin (User.account_type user) ->
  present (query_id req) aid ->
  Appointment.findById aid (appointments s) = Some appointment ->
  ~ In (JS.toLowerCase (Appointment.appointment_name appointment)) protected_names ->
  serve rt req s
  = (Returned ResValue,
     mkState
       (mkStore (Appointment.findByIdAndDelete aid (appointments s))
                (users s) (tokens s))
       [mkResponse 200 (Message "Appointment deleted successfully")])
  /\ (exists before after,
         appointments s = (before ++ appointment :: after)%list
         /\ appointments (store (snd (serve rt req s))) = (before ++ after)%list)
  /\ users (store (snd (serve rt req s))) = users s
  /\ (forall holder,
         User.findById (Appointment.account_id appointment) (users s) = Some holder ->
         User.appointment holder = Some (Appointment.appointment_name appointment) ->
         exists holder',
           User.findById (Appointment.account_id appointment)
                         (users (store (snd (serve rt req s))))
           = Some holder'
           /\ User.appointment holder'
              = Some (Appointment.appointment_name appointment)).
Proof.
  intros Hreq Hconn Hcred Hcaller Hrole Hid Hfind Hfree.
  destruct (truthy_present _ _ Hid) as [Htruthy Hget].
  apply includes_not_In in Hfree.
  assert (Hrun : serve rt req s
    = (Returned ResValue,
       mkState
         (mkStore (Appointment.findByIdAndDelete aid (appointments s))
                  (users s) (tokens s))
         [mkResponse 200 (Message "Appointment deleted successfully")])).
  { unfold serve. rewrite (module_exports_dispatch rt req OpDelete) by assumption.
    unfold try_catch, operation, delete_appointment, bind.
    rewrite (decodeJWT_valid rt s req decoded) by (assumption || reflexivity).
    unfold gets. js. rewrite Hcaller, (checkAuthorization_pass rt _ _ Hrole).
    js. rewrite Htruthy, Hget. js. rewrite Hfind, Hfree. reflexivity. }
  rewrite Hrun. cbn [snd]. js. repeat split.
  - destruct (Appointment_findById_split _ _ _ Hfind) as [before [after [Hc Hb]]].
    exists before, after. split; [exact Hc|]. rewrite Hc.
    apply Appointment_findByIdAndDelete_split; [exact Hb|].
    exact (Appointment_findById_id _ _ _ Hfind).
  - intros holder Hholder Hname. exists holder. split; assumption.
Qed.

Lemma delete_removes_the_appointment_only_witness :
  serve Sample.node (Sample.delete_request (Some "officer") (Some "a2")) Sample.db
  = (Returned ResValue,
     mkState (mkStore [Sample.captain] [Sample.alice; Sample.bob] ["spent"])
             [mkResponse 200 (Message "Appointment deleted successfully")]).
Proof.
  apply (delete_removes_the_appointment_only
           Sample.node Sample.db
           (Sample.delete_request (Some "officer") (Some "a2"))
           (mkClaims "u1" 2000) Sample.alice "a2" Sample.bugler).
  - split; reflexivity.
  - reflexivity.
  - sample_credential "officer".
  - reflexivity.
  - left; reflexivity.
  - split; [reflexivity | discriminate].
  - reflexivity.
  - simpl. intuition discriminate.
Defined.

(** After a create and a delete of the same appointment the holder's account
    still names it. *)
Example stale_name_after_delete :
  let created :=
    store (snd (serve Sample.node
                      (Sample.create_request (Some "officer")
                         (mkBody (Some "Drummer") (Some "Boy") (Some "u2") None))
                      Sample.db)) in
  let deleted :=
    store (snd (serve Sample.node
                      (Sample.delete_request (Some "officer") (Some "a3"))
                      created)) in
  Appointment.findById "a3" (appointments created)
  = Some (Appointment.mk "a3" "Drummer" "Boy" (Some "u2"))
  /\ Appointment.findById "a3" (appointments deleted) = None
  /\ option_map User.appointment (User.findById (Some "u2") (users deleted))
     = Some (Some "Drummer").
Proof. repeat split. Qed.

(** ** A credential that fails validation (C2) *)

(** C2, on the List path.  The value of [decodeJWT] is not looked at there:
    when the credential fails validation the handler answers 401 with the
    failure's message, then reads every appointment and every holder and
    requests a second response, 200 with the whole enriched collection.  The
    store is left as it was. *)
Theorem list_goes_on_after_failed_validation
        (rt : Runtime) (s : Store) (req : Request) (failure : AuthFailure) :
  requests req OpList -> connect_ok rt = true ->
  spec_validate rt (tokens s) (cookie_token req) = inl failure ->
  res_calls (snd (serve rt req s))
  = [mkResponse 401 (Message (failure_message failure));
     mkResponse 200 (Items (map (list_item (users s)) (appointments s)))]
  /\ store (snd (serve rt req s)) = s.
Proof.
  intros Hreq Hconn Hfail. unfold serve.
  rewrite (module_exports_dispatch rt req OpList) by assumption.
  unfold try_catch, operation, get_appointments, bind.
  rewrite (decodeJWT_failure rt _ _ _ Hfail).
  unfold gets, Appointment.find. js. rewrite for_of_map.
  unfold res_status_json. js.
  destruct (json_throws_once_sent rt); split; reflexivity.
Qed.

Lemma list_goes_on_after_failed_validation_witness :
  res_calls (snd (serve Sample.node (Sample.list_request None) Sample.db))
  = [mkResponse 401 (Message "Missing authorization token");
     mkResponse 200
       (Items [mkItem "a1" "Captain" "Officer" (Some "u1") (Some "Alice");
               mkItem "a2" "Bugler" "Boy" (Some "u9") None])]
  /\ store (snd (serve Sample.node (Sample.list_request None) Sample.db))
     = Sample.db.
Proof.
  apply (list_goes_on_after_failed_validation
           Sample.node Sample.db (Sample.list_request None) MissingCredential).
  - split; reflexivity.
  - reflexivity.
  - reflexivity.
Defined.

(** On the three other paths the test [!decoded || decoded.error] does not
    stop a handler whose [res.status(401).json(...)] returned [res]: the
    account lookup is made with an undefined id and a second response, 404
    "User not found", is requested.  No store write is made. *)
Lemma mutation_goes_on_after_failed_validation
      (rt : Runtime) (s : Store) (req : Request) (op : Operation)
      (failure : AuthFailure) :
  requests req op -> op <> OpList -> connect_ok rt = true ->
  json_value rt = res_itself ->
  spec_validate rt (tokens s) (cookie_token req) = inl failure ->
  res_calls (snd (serve rt req s))
  = [mkResponse 401 (Message (failure_message failure));
     mkResponse 404 (Message "User not found")]
  /\ store (snd (serve rt req s)) = s.
Proof.
  intros Hreq Hop Hconn Hres Hfail. unfold serve.
  rewrite (module_exports_dispatch rt req op) by assumption.
  destruct op; [contradiction | | |];
    unfold try_catch, operation, create_appointment, update_appointment,
           delete_appointment, bind;
    rewrite (decodeJWT_failure rt _ _ _ Hfail);
    unfold gets; js; rewrite Hres; cbn [json_truthy json_error json_id res_itself];
    js; rewrite User_findById_undefined; unfold res_status_json; js;
    destruct (json_throws_once_sent rt); split; reflexivity.
Qed.

(** ** The fault boundary (C9) *)

(** C9, as the code has it.  Whatever is thrown inside the [try], the [catch]
    throws in turn, a [ReferenceError] for the undefined [handleServerError],
    and requests no response: the handler's promise is rejected with the
    calls on [res] and the store as the fault left them.  In particular a
    store that cannot be reached gives no response at all. *)
Theorem fault_boundary_throws_again
        (rt : Runtime) (s : Store) (req : Request) :
  method req <> "OPTIONS" ->
  (forall e st',
      handler_try rt req (mkState s []) = (Threw e, st') ->
      serve rt req s
      = (Threw (JS.ReferenceError "handleServerError is not defined"), st'))
  /\ (JS.truthy (x_route req) = true -> connect_ok rt = false ->
      serve rt req s
      = (Threw (JS.ReferenceError "handleServerError is not defined"),
         mkState s [])).
Proof.
  intros Hmethod.
  assert (Hopt : String.eqb (method req) "OPTIONS" = false).
  { destruct (String.eqb_spec (method req) "OPTIONS"); [contradiction | reflexivity]. }
  assert (Hcatch : forall e st',
             handler_try rt req (mkState s []) = (Threw e, st') ->
             serve rt req s
             = (Threw (JS.ReferenceError "handleServerError is not defined"), st')).
  { intros e st' Hthrow. unfold serve, module_exports, try_catch.
    rewrite Hopt, Hthrow. reflexivity. }
  split; [exact Hcatch|].
  intros Hroute Hconn. apply (Hcatch (JS.Error "Database connection failed")).
  unfold handler_try, bind, connectToDatabase. rewrite Hroute, Hconn. reflexivity.
Qed.

Lemma fault_boundary_throws_again_witness :
  serve Sample.offline (Sample.list_request (Some "officer")) Sample.db
  = (Threw (JS.ReferenceError "handleServerError is not defined"),
     mkState Sample.db []).
Proof.
  apply (fault_boundary_throws_again
           Sample.offline Sample.db (Sample.list_request (Some "officer"))).
  - discriminate.
  - reflexivity.
  - reflexivity.
Defined.

(** ** The effects of a request on the store *)

Lemma decodeJWT_fresh (rt : Runtime) (token : option string) (s : Store) :
  decodeJWT rt token true (mkState s [])
  = match spec_validate rt (tokens s) token with
    | inl failure =>
        (Returned ResValue,
         mkState s [mkResponse 401 (Message (failure_message failure))])
    | inr claims => (Returned (Decoded claims), mkState s [])
    end.
Proof.
  unfold decodeJWT, try_catch. rewrite decodeJWT_try_validate. cbn [store].
  destruct (spec_validate rt (tokens s) token); reflexivity.
Qed.

Lemma role_passes (role : option string) :
  JS.truthy role = true -> JS.includes ["Officer"; "Admin"] (get role) = true ->
  officer_or_admin role.
Proof.
  intros Ht Hi. apply includes_In in Hi. destruct role as [r|]; [|discriminate].
  simpl in Hi. destruct Hi as [<- | [<- | []]]; [left | right]; reflexivity.
Qed.

Lemma not_protected (a : Appointment.doc) :
  JS.includes protected_names (JS.toLowerCase (Appointment.appointment_name a))
  = false ->
  ~ protected a.
Proof.
  intros H Hp. apply includes_In in Hp. rewrite Hp in H. discriminate.
Qed.

Lemma handler_try_routed (rt : Runtime) (req : Request) (st : State) :
  JS.truthy (x_route req) = true -> connect_ok rt = true ->
  handler_try rt req st = switch rt req st.
Proof.
  intros Hroute Hconn. unfold handler_try, connectToDatabase, bind.
  rewrite Hroute, Hconn. reflexivity.
Qed.

(** Case analysis along the handler: one test of the code at a time. *)
Ltac walk_split :=
  match goal with
  | |- context [json_truthy ?j] => destruct (json_truthy j) eqn:?
  | |- context [json_error ?j] => destruct (json_error j) eqn:?
  | |- context [json_throws_once_sent ?r] => destruct (json_throws_once_sent r) eqn:?
  | |- context [User.findById ?i ?c] => destruct (User.findById i c) eqn:?
  | |- context [Appointment.findById ?i ?c] => destruct (Appointment.findById i c) eqn:?
  | |- context [JS.truthy ?x] => destruct (JS.truthy x) eqn:?
  | |- context [JS.includes ?l ?x] => destruct (JS.includes l x) eqn:?
  end.

Ltac walk_reduce :=
  cbn [truthy_value error_value id_value negb orb andb store res_calls
       appointments users tokens snd fst app].

Ltac walk := walk_reduce; repeat (walk_split; walk_reduce).

Ltac unfold_case :=
  unfold create_appointment, update_appointment, delete_appointment,
         checkAuthorization, handler_catch, try_catch, bind, gets, modify,
         ret, throw.

Ltac gate :=
  first
    [ eapply gate_validated;
      [ eassumption | eassumption
      | first [ left; eapply role_passes; eassumption | right; assumption ] ]
    | eapply gate_response;
      [ eassumption | assumption | assumption | eassumption
      | eapply role_passes; eassumption ] ].

Ltac effect_leaf :=
  first
    [ apply Unchanged
    | congruence
    | apply Created; [assumption | gate | assumption | assumption | assumption]
    | eapply Reassigned; [assumption | gate | assumption | assumption | eassumption]
    | eapply Deleted;
      [ assumption | gate | assumption | eassumption
      | apply not_protected; assumption ] ].

Lemma create_effect (rt : Runtime) (req : Request) (s : Store) :
  routeKey req = "POST /create_appointment" ->
  Effect rt req s
         (store (snd (try_catch (create_appointment rt req) handler_catch
                                (mkState s [])))).
Proof.
  intros Hkey. unfold_case. rewrite decodeJWT_fresh.
  destruct (spec_validate rt (tokens s) (cookie_token req)) eqn:Hv;
    unfold res_status_json; walk; effect_leaf.
Qed.

Lemma update_effect (rt : Runtime) (req : Request) (s : Store) :
  routeKey req = "PUT /update_appointment" ->
  Effect rt req s
         (store (snd (try_catch (update_appointment rt req) handler_catch
                                (mkState s [])))).
Proof.
  intros Hkey. unfold_case. rewrite decodeJWT_fresh.
  destruct (spec_validate rt (tokens s) (cookie_token req)) eqn:Hv;
    unfold res_status_json; walk; effect_leaf.
Qed.

Lemma delete_effect (rt : Runtime) (req : Request) (s : Store) :
  routeKey req = "DELETE /delete_appointment" ->
  Effect rt req s
         (store (snd (try_catch (delete_appointment rt req) handler_catch
                                (mkState s [])))).
Proof.
  intros Hkey. unfold_case. rewrite decodeJWT_fresh.
  destruct (spec_validate rt (tokens s) (cookie_token req)) eqn:Hv;
    unfold res_status_json; walk; effect_leaf.
Qed.

Lemma preserves_get_appointments (rt : Runtime) (req : Request) :
  preserves_store (get_appointments rt req).
Proof.
  unfold get_appointments. repeat frame_step.
  intros st. rewrite for_of_map. reflexivity.
Qed.

(** Whatever the request and the runtime, and every store operation
    completing, the store a request leaves is the store it found, or the
    result of one Create, one Reassign or one Delete that went past the
    credential test, the role test and the input tests of its case. *)
Lemma serve_effect (rt : Runtime) (req : Request) (s : Store) :
  Effect rt req s (store (snd (serve rt req s))).
Proof.
  unfold serve, module_exports.
  destruct (String.eqb (method req) "OPTIONS"); [apply Unchanged|].
  destruct (JS.truthy (x_route req)) eqn:Hroute.
  2: { unfold try_catch, handler_try. rewrite Hroute. apply Unchanged. }
  destruct (connect_ok rt) eqn:Hconn.
  2: { unfold try_catch, handler_try, connectToDatabase, bind.
       rewrite Hroute, Hconn. apply Unchanged. }
  assert (Hswitch : try_catch (handler_try rt req) handler_catch (mkState s [])
                    = try_catch (switch rt req) handler_catch (mkState s [])).
  { unfold try_catch. now rewrite handler_try_routed. }
  rewrite Hswitch. clear Hswitch. unfold switch.
  destruct (String.eqb_spec (routeKey req) "GET /get_appointments").
  { pose proof (preserves_try_catch _ _ (preserves_get_appointments rt req)
                                    preserves_handler_catch (mkState s [])) as H.
    cbn [store] in H. rewrite H. apply Unchanged. }
  destruct (String.eqb_spec (routeKey req) "POST /create_appointment").
  { now apply create_effect. }
  destruct (String.eqb_spec (routeKey req) "PUT /update_appointment").
  { now apply update_effect. }
  destruct (String.eqb_spec (routeKey req) "DELETE /delete_appointment").
  { now apply delete_effect. }
  apply Unchanged.
Qed.

(** *** What the three writes keep *)

Lemma User_updateOne_identity (i name : string) (c : list User.doc) :
  map identity (User.updateOne i name c) = map identity c.
Proof.
  induction c as [|u c IH]; simpl; [reflexivity|].
  destruct (String.eqb (User._id u) i); simpl; [reflexivity | now rewrite IH].
Qed.

Lemma User_updateOne_unresolved (i name : string) (c : list User.doc) :
  User.findById (Some i) c = None -> User.updateOne i name c = c.
Proof.
  induction c as [|u c IH]; simpl; [reflexivity|].
  destruct (String.eqb (User._id u) i); [discriminate|].
  intros H. now rewrite IH.
Qed.

Lemma User_findById_updateOne_frame (i j name : string) (c : list User.doc) :
  i <> j ->
  User.findById (Some j) (User.updateOne i name c) = User.findById (Some j) c.
Proof.
  intros Hij. induction c as [|u c IH]; simpl; [reflexivity|].
  destruct (String.eqb_spec (User._id u) i) as [Ei|Ei]; simpl.
  - destruct (String.eqb_spec (User._id u) j) as [Ej|Ej]; [congruence|].
    reflexivity.
  - destruct (String.eqb_spec (User._id u) j); [reflexivity | exact IH].
Qed.

Lemma Appointment_updateOne_ids (i v : string) (c : list Appointment.doc) :
  map Appointment._id (Appointment.updateOne i v c) = map Appointment._id c.
Proof.
  induction c as [|a c IH]; simpl; [reflexivity|].
  destruct (String.eqb (Appointment._id a) i); simpl; [reflexivity | now rewrite IH].
Qed.

Lemma Appointment_updateOne_In (i v : string) (c : list Appointment.doc)
      (a : Appointment.doc) :
  In a c ->
  exists a',
    In a' (Appointment.updateOne i v c)
    /\ Appointment._id a' = Appointment._id a
    /\ Appointment.appointment_name a' = Appointment.appointment_name a
    /\ Appointment.account_type a' = Appointment.account_type a.
Proof.
  induction c as [|x c IH]; simpl; [contradiction|].
  intros [-> | Hin].
  - destruct (String.eqb (Appointment._id a) i).
    + eexists. split; [left; reflexivity|]. repeat split.
    + exists a. split; [left; reflexivity|]. repeat split.
  - destruct (String.eqb (Appointment._id x) i).
    + exists a. split; [right; exact Hin|]. repeat split.
    + destruct (IH Hin) as [a' [Hin' Hsame]].
      exists a'. split; [right; exact Hin' | exact Hsame].
Qed.

Lemma Appointment_findByIdAndDelete_In (i : string) (c : list Appointment.doc)
      (a b : Appointment.doc) :
  In a c -> Appointment.findById i c = Some b -> a <> b ->
  In a (Appointment.findByIdAndDelete i c).
Proof.
  induction c as [|x c IH]; simpl; [contradiction|].
  destruct (String.eqb (Appointment._id x) i).
  - intros [-> | Hin] [= <-] Hab; [contradiction | exact Hin].
  - intros [-> | Hin] Hfind Hab; [left; reflexivity | right; now apply IH].
Qed.

Lemma Appointment_findByIdAndDelete_ids (i x : string) (c : list Appointment.doc) :
  In x (map Appointment._id (Appointment.findByIdAndDelete i c)) ->
  In x (map Appointment._id c).
Proof.
  induction c as [|a c IH]; simpl; [contradiction|].
  destruct (String.eqb (Appointment._id a) i); simpl.
  - intros H. right. exact H.
  - intros [H | H]; [left; exact H | right; exact (IH H)].
Qed.

Lemma Appointment_findByIdAndDelete_NoDup (i : string) (c : list Appointment.doc) :
  NoDup (map Appointment._id c) ->
  NoDup (map Appointment._id (Appointment.findByIdAndDelete i c)).
Proof.
  induction c as [|a c IH]; simpl; [intros H; exact H|].
  intros H. inversion H as [|? ? Hnotin Hrest]; subst.
  destruct (String.eqb (Appointment._id a) i); simpl; [exact Hrest|].
  constructor; [|exact (IH Hrest)].
  intros Hin. apply Hnotin. exact (Appointment_findByIdAndDelete_ids _ _ _ Hin).
Qed.

Lemma Appointment_findByIdAndDelete_gone (i : string) (c : list Appointment.doc) :
  NoDup (map Appointment._id c) ->
  Appointment.findById i (Appointment.findByIdAndDelete i c) = None.
Proof.
  induction c as [|a c IH]; simpl; [reflexivity|].
  intros H. inversion H as [|? ? Hnotin Hrest]; subst.
  destruct (String.eqb_spec (Appointment._id a) i) as [E|E]; simpl.
  - destruct (Appointment.findById i c) as [b|] eqn:Hb; [|reflexivity].
    exfalso. apply Hnotin. rewrite E.
    destruct (Appointment_findById_split _ _ _ Hb) as [before [after [-> _]]].
    rewrite map_app. apply in_or_app. right. left.
    exact (Appointment_findById_id _ _ _ Hb).
  - destruct (String.eqb_spec (Appointment._id a) i); [contradiction|].
    exact (IH Hrest).
Qed.

(** A credential that [spec_validate] accepts is a valid
    credential, and conversely. *)
Lemma validate_valid (rt : Runtime) (s : Store) (req : Request) (decoded : Claims) :
  spec_validate rt (tokens s) (cookie_token req) = inr decoded <->
  ValidCredential rt s req decoded.
Proof.
  split.
  - unfold spec_validate. destruct (cookie_token req) as [[|c t]|] eqn:Htoken;
      try discriminate.
    destruct (jwt_verify rt (String c t)) as [| |d] eqn:Hverify; try discriminate.
    destruct (Qlt_le_dec (exp d) (Date_now rt # 1000)) as [|Hle];
      try discriminate.
    destruct (in_dec string_dec (String c t) (tokens s)) as [|Hout];
      try discriminate.
    intros [= <-]. constructor.
    + exists (String c t). split; [exact Htoken | discriminate].
    + rewrite Htoken. exact Hverify.
    + exact Hle.
    + rewrite Htoken. exact Hout.
  - intros [[t [Ht Hne]] Hv Hexp Hlog]. rewrite Ht in *. simpl in Hv, Hlog.
    unfold spec_validate. destruct t as [|c t]; [contradiction|]. rewrite Hv.
    destruct (Qlt_le_dec (exp decoded) (Date_now rt # 1000)) as [Hlt|_].
    + exfalso. exact (Qlt_not_le _ _ Hlt Hexp).
    + destruct (in_dec string_dec (String c t) (tokens s)); [contradiction|].
      reflexivity.
Qed.

Lemma NoDup_snoc (l : list string) (x : string) :
  NoDup l -> ~ In x l -> NoDup (l ++ [x]).
Proof.
  induction l as [|y l IH]; simpl; intros Hl Hx.
  - constructor; [intros [] | constructor].
  - inversion Hl as [|? ? Hy Hrest]; subst. constructor.
    + intros Hin. apply in_app_or in Hin. destruct Hin as [Hin | [-> | []]].
      * contradiction.
      * apply Hx. left. reflexivity.
    + apply IH; [exact Hrest | intros Hin; apply Hx; right; exact Hin].
Qed.

Lemma serve_tokens (rt : Runtime) (req : Request) (s : Store) :
  tokens (store (snd (serve rt req s))) = tokens s.
Proof. destruct (serve_effect rt req s); reflexivity. Qed.

Lemma serve_users_identity (rt : Runtime) (req : Request) (s : Store) :
  map identity (users (store (snd (serve rt req s)))) = map identity (users s).
Proof.
  destruct (serve_effect rt req s); try reflexivity.
  apply User_updateOne_identity.
Qed.

Lemma ValidCredential_tokens (rt : Runtime) (s s' : Store) (req : Request)
      (decoded : Claims) :
  tokens s' = tokens s ->
  ValidCredential rt s req decoded -> ValidCredential rt s' req decoded.
Proof.
  intros Htokens [Hpresent Hverified Hfresh Hunused].
  constructor; try assumption. now rewrite Htokens.
Qed.

(** ** Properties of the whole handler *)

(** X1.  A request changes the store only on one of the three writing route
    keys and only after the tests that precede the write in that case: the
    credential test and the role test, then the three fields of a Create
    being present, or the two ids of a Reassign being present and the
    appointment id resolving, or the id of a Delete being present and
    resolving to an appointment that is not protected. *)
Theorem a_store_change_has_passed_every_test
        (rt : Runtime) (req : Request) (s : Store) :
  store (snd (serve rt req s)) <> s ->
  Gate rt req s
  /\ ((routeKey req = "POST /create_appointment"
       /\ JS.truthy (appointment_name (body_of req)) = true
       /\ JS.truthy (account_type (body_of req)) = true
       /\ JS.truthy (account_id (body_of req)) = true)
      \/ (routeKey req = "PUT /update_appointment"
          /\ JS.truthy (account_id (body_of req)) = true
          /\ JS.truthy (appointment_id (body_of req)) = true
          /\ exists a,
               Appointment.findById (get (appointment_id (body_of req)))
                                    (appointments s) = Some a)
      \/ (routeKey req = "DELETE /delete_appointment"
          /\ JS.truthy (query_id req) = true
          /\ exists a,
               Appointment.findById (get (query_id req)) (appointments s) = Some a
               /\ ~ protected a)).
Proof.
  intros Hchanged.
  destruct (serve_effect rt req s) as [| | a | a].
  - contradiction.
  - split; [assumption|]. left. repeat split; assumption.
  - split; [assumption|]. right. left. repeat split; try assumption.
    exists a. assumption.
  - split; [assumption|]. right. right. repeat split; try assumption.
    exists a. split; assumption.
Qed.

Lemma a_store_change_has_passed_every_test_witness :
  Gate Sample.node (Sample.delete_request (Some "officer") (Some "a2")) Sample.db.
Proof.
  apply (a_store_change_has_passed_every_test
           Sample.node (Sample.delete_request (Some "officer") (Some "a2"))
           Sample.db).
  vm_compute. discriminate.
Defined.

(** X2.  The handler never writes the consumed-token log: after any request,
    the log is what it was, and a credential that was valid before is still
    valid, the one the request itself presented included. *)
Theorem credential_stays_valid
        (rt : Runtime) (s : Store) (req served : Request) (decoded : Claims) :
  ValidCredential rt s req decoded ->
  tokens (store (snd (serve rt served s))) = tokens s
  /\ ValidCredential rt (store (snd (serve rt served s))) req decoded.
Proof.
  intros Hvalid. split; [apply serve_tokens|].
  exact (ValidCredential_tokens _ _ _ _ _ (serve_tokens rt served s) Hvalid).
Qed.

Lemma credential_stays_valid_witness :
  ValidCredential
    Sample.node
    (store (snd (serve Sample.node
                       (Sample.delete_request (Some "officer") (Some "a2"))
                       Sample.db)))
    (Sample.delete_request (Some "officer") (Some "a2")) (mkClaims "u1" 2000).
Proof.
  apply (credential_stays_valid
           Sample.node Sample.db
           (Sample.delete_request (Some "officer") (Some "a2"))
           (Sample.delete_request (Some "officer") (Some "a2"))
           (mkClaims "u1" 2000)).
  sample_credential "officer".
Defined.

(** X3.  No request adds or removes an account or changes an account's id,
    display name or role: the only account field the handler ever writes is
    the denormalized appointment name. *)
Theorem accounts_keep_their_identity (rt : Runtime) (req : Request) (s : Store) :
  map identity (users (store (snd (serve rt req s)))) = map identity (users s).
Proof. exact (serve_users_identity rt req s). Qed.

(** X4.  Only the Create case writes to the accounts: a request whose route
    key is not "POST /create_appointment" leaves every account as it was. *)
Theorem only_create_touches_accounts (rt : Runtime) (req : Request) (s : Store) :
  routeKey req <> "POST /create_appointment" ->
  users (store (snd (serve rt req s))) = users s.
Proof.
  intros Hkey. destruct (serve_effect rt req s); try reflexivity. contradiction.
Qed.

Lemma only_create_touches_accounts_witness :
  users (store (snd (serve Sample.node
                           (Sample.update_request (Some "officer")
                              (mkBody None None (Some "u2") (Some "a1")))
                           Sample.db)))
  = users Sample.db.
Proof.
  apply (only_create_touches_accounts
           Sample.node
           (Sample.update_request (Some "officer")
              (mkBody None None (Some "u2") (Some "a1")))
           Sample.db).
  discriminate.
Defined.

Lemma serve_protected
        (rt : Runtime) (req : Request) (s : Store) (a : Appointment.doc) :
  In a (appointments s) -> protected a ->
  exists a',
    In a' (appointments (store (snd (serve rt req s))))
    /\ Appointment._id a' = Appointment._id a
    /\ Appointment.appointment_name a' = Appointment.appointment_name a
    /\ Appointment.account_type a' = Appointment.account_type a.
Proof.
  intros Hin Hprot.
  destruct (serve_effect rt req s) as [| | |b Hkey Hgate Hid Hfind Hfree].
  - exists a. repeat split. exact Hin.
  - exists a. repeat split. cbn [appointments created]. apply in_or_app.
    left. exact Hin.
  - now apply Appointment_updateOne_In.
  - exists a. repeat split. cbn [appointments deleted].
    apply (Appointment_findByIdAndDelete_In _ _ a b); [exact Hin | exact Hfind |].
    intros ->. contradiction.
Qed.

(** X5.  No request removes or renames a protected appointment, whoever sends
    it and whatever the runtime: an appointment of the store whose lower-cased
    name is a core name is still there afterwards, with its id, its name and
    its account type (its holder may have been reassigned). *)
Theorem protected_appointments_survive
        (rt : Runtime) (req : Request) (s : Store) (a : Appointment.doc) :
  In a (appointments s) -> protected a ->
  exists a',
    In a' (appointments (store (snd (serve rt req s))))
    /\ Appointment._id a' = Appointment._id a
    /\ Appointment.appointment_name a' = Appointment.appointment_name a
    /\ Appointment.account_type a' = Appointment.account_type a.
Proof. exact (serve_protected rt req s a). Qed.

Lemma protected_appointments_survive_witness :
  exists a',
    In a' (appointments
             (store (snd (serve Sample.node
                                (Sample.delete_request (Some "officer") (Some "a1"))
                                Sample.db))))
    /\ Appointment._id a' = "a1"
    /\ Appointment.appointment_name a' = "Captain"
    /\ Appointment.account_type a' = "Officer".
Proof.
  apply (protected_appointments_survive
           Sample.node (Sample.delete_request (Some "officer") (Some "a1"))
           Sample.db Sample.captain).
  - left; reflexivity.
  - unfold protected. simpl. auto.
Defined.

(** X6.  When [res.status(c).json(b)] evaluates to a truthy value that has no
    [id] property (it returns [res]), a request changes the store only if its
    credential passes the token validator and the credential's subject is an
    account whose role is Officer or Admin. *)
Theorem no_write_without_authorization
        (rt : Runtime) (req : Request) (s : Store) :
  json_truthy (json_value rt) = true -> json_id (json_value rt) = None ->
  store (snd (serve rt req s)) <> s ->
  exists decoded user,
    ValidCredential rt s req decoded /\ Caller s decoded user
    /\ officer_or_admin (User.account_type user).
Proof.
  intros Htruthy Hid Hchanged.
  assert (Hgate : Gate rt req s).
  { destruct (serve_effect rt req s); [contradiction | assumption..]. }
  destruct Hgate as [decoded user Hv Hu [Hrole | Hfalsy]
                    | failure user Hv _ _ Hu _].
  - exists decoded, user. split; [now apply validate_valid | split; assumption].
  - congruence.
  - rewrite Hid, User_findById_undefined in Hu. discriminate.
Qed.

Lemma no_write_without_authorization_witness :
  exists decoded user,
    ValidCredential Sample.node Sample.db
                    (Sample.delete_request (Some "officer") (Some "a2")) decoded
    /\ Caller Sample.db decoded user
    /\ officer_or_admin (User.account_type user).
Proof.
  apply (no_write_without_authorization
           Sample.node (Sample.delete_request (Some "officer") (Some "a2"))
           Sample.db).
  - reflexivity.
  - reflexivity.
  - vm_compute. discriminate.
Defined.

(** X7.  Distinct appointment ids stay distinct: if no two appointments share
    an id and the id the store gives to a new document is not in use, then
    after any request no two appointments share an id.  A Reassign keeps the
    ids and their order. *)
Theorem appointment_ids_stay_distinct
        (rt : Runtime) (req : Request) (s : Store) :
  NoDup (appointment_ids s) ->
  ~ In (ObjectId rt (appointments s)) (appointment_ids s) ->
  NoDup (appointment_ids (store (snd (serve rt req s)))).
Proof.
  intros Hdistinct Hfresh. unfold appointment_ids in *.
  destruct (serve_effect rt req s).
  - exact Hdistinct.
  - cbn [appointments created]. rewrite map_app. simpl.
    now apply NoDup_snoc.
  - cbn [appointments reassigned]. now rewrite Appointment_updateOne_ids.
  - cbn [appointments deleted]. now apply Appointment_findByIdAndDelete_NoDup.
Qed.

Lemma appointment_ids_stay_distinct_witness :
  NoDup (appointment_ids
           (store (snd (serve Sample.node
                              (Sample.create_request (Some "officer")
                                 (mkBody (Some "Drummer") (Some "Boy")
                                         (Some "u2") None))
                              Sample.db)))).
Proof.
  apply (appointment_ids_stay_distinct
           Sample.node
           (Sample.create_request (Some "officer")
              (mkBody (Some "Drummer") (Some "Boy") (Some "u2") None))
           Sample.db).
  - repeat constructor; simpl; intuition discriminate.
  - simpl; intuition discriminate.
Defined.

(** ** Requests that never reach a case *)

(** X8.  Two kinds of request are answered before the store is contacted, and
    so even when the store cannot be reached: a request whose method is
    exactly "OPTIONS" is answered 200 with no body, whatever its route and
    credential; any other request with no route header (or an empty one) is
    answered 401 "Missing route in headers".  Neither touches the store. *)
Theorem answered_before_the_store_is_contacted
        (rt : Runtime) (req : Request) (s : Store) :
  method req = "OPTIONS" \/ JS.truthy (x_route req) = false ->
  serve rt req s
  = (Returned ResValue,
     mkState s [if String.eqb (method req) "OPTIONS"
                then mkResponse 200 NoBody
                else mkResponse 401 (Message "Missing route in headers")]).
Proof.
  intros H. unfold serve, module_exports.
  destruct (String.eqb_spec (method req) "OPTIONS") as [|Hother]; [reflexivity|].
  destruct H as [H | H]; [contradiction|].
  unfold try_catch, handler_try. rewrite H. reflexivity.
Qed.

Lemma answered_before_the_store_is_contacted_witness :
  serve Sample.offline (mkRequest "OPTIONS" None None None None) Sample.db
  = (Returned ResValue, mkState Sample.db [mkResponse 200 NoBody])
  /\ serve Sample.offline (mkRequest "GET" None (Some "officer") None None)
           Sample.db
     = (Returned ResValue,
        mkState Sample.db [mkResponse 401 (Message "Missing route in headers")]).
Proof.
  split.
  - apply (answered_before_the_store_is_contacted
             Sample.offline (mkRequest "OPTIONS" None None None None) Sample.db).
    left; reflexivity.
  - apply (answered_before_the_store_is_contacted
             Sample.offline (mkRequest "GET" None (Some "officer") None None)
             Sample.db).
    right; reflexivity.
Defined.

(** X9.  A request whose method and route form none of the four route keys is
    answered 404 "Route not found" without its credential being looked at;
    but the store is contacted first, so when the store cannot be reached the
    same request gets no answer and the handler throws. *)
Theorem unknown_route_is_not_found
        (rt : Runtime) (req : Request) (s : Store) :
  method req <> "OPTIONS" -> JS.truthy (x_route req) = true ->
  ~ In (routeKey req)
       ["GET /get_appointments"; "POST /create_appointment";
        "PUT /update_appointment"; "DELETE /delete_appointment"] ->
  serve rt req s
  = if connect_ok rt
    then (Returned ResValue,
          mkState s [mkResponse 404 (Message "Route not found")])
    else (Threw (JS.ReferenceError "handleServerError is not defined"),
          mkState s []).
Proof.
  intros Hmethod Hroute Hkey. unfold serve, module_exports.
  destruct (String.eqb_spec (method req) "OPTIONS"); [contradiction|].
  unfold try_catch, handler_try, connectToDatabase, bind. rewrite Hroute.
  destruct (connect_ok rt); [|reflexivity].
  unfold ret, switch.
  repeat match goal with
         | |- context [String.eqb (routeKey req) ?k] =>
             destruct (String.eqb_spec (routeKey req) k) as [E|_];
             [exfalso; apply Hkey; rewrite E; simpl; tauto|]
         end.
  reflexivity.
Qed.

Lemma unknown_route_is_not_found_witness :
  serve Sample.node (Sample.request "GET" "/delete_appointment" None None None)
        Sample.db
  = (Returned ResValue,
     mkState Sample.db [mkResponse 404 (Message "Route not found")]).
Proof.
  apply (unknown_route_is_not_found
           Sample.node
           (Sample.request "GET" "/delete_appointment" None None None) Sample.db).
  - discriminate.
  - reflexivity.
  - simpl. intuition discriminate.
Defined.

(** X10.  Routing does not depend on the case of the method: two requests
    that differ only in their method, with the same upper-cased method and
    neither being exactly "OPTIONS", are served alike.  (The preflight test
    is case sensitive.) *)
Theorem routing_ignores_the_case_of_the_method
        (rt : Runtime) (req : Request) (m : string) (s : Store) :
  JS.toUpperCase m = JS.toUpperCase (method req) ->
  m <> "OPTIONS" -> method req <> "OPTIONS" ->
  serve rt (mkRequest m (x_route req) (cookie_token req) (req_body req)
                      (query_id req)) s
  = serve rt req s.
Proof.
  intros Hupper Hm Hmethod. unfold serve, module_exports. cbn [method].
  destruct (String.eqb_spec m "OPTIONS"); [contradiction|].
  destruct (String.eqb_spec (method req) "OPTIONS"); [contradiction|].
  unfold try_catch, handler_try, switch, routeKey. cbn [method x_route].
  rewrite Hupper. reflexivity.
Qed.

Lemma routing_ignores_the_case_of_the_method_witness :
  serve Sample.node
        (mkRequest "delete" (Some "/delete_appointment") (Some "officer") None
                   (Some "a2"))
        Sample.db
  = serve Sample.node (Sample.delete_request (Some "officer") (Some "a2"))
          Sample.db.
Proof.
  apply (routing_ignores_the_case_of_the_method
           Sample.node (Sample.delete_request (Some "officer") (Some "a2"))
           "delete" Sample.db).
  - reflexivity.
  - discriminate.
  - discriminate.
Defined.

(** ** Refusals inside the cases *)

(** X11.  A Create, Reassign or Delete request whose credential is valid but
    whose subject has no account is answered 404 "User not found" and leaves
    the store as it was. *)
Theorem caller_without_account_is_not_found
        (rt : Runtime) (s : Store) (req : Request) (op : Operation)
        (decoded : Claims) :
  requests req op -> op <> OpList -> connect_ok rt = true ->
  ValidCredential rt s req decoded ->
  User.findById (Some (id decoded)) (users s) = None ->
  serve rt req s
  = (Returned ResValue, mkState s [mkResponse 404 (Message "User not found")]).
Proof.
  intros Hreq Hop Hconn Hcred Hnone. unfold serve.
  rewrite (module_exports_dispatch rt req op) by assumption.
  destruct op; [contradiction | | |];
    unfold try_catch, operation, create_appointment, update_appointment,
           delete_appointment, bind;
    rewrite (decodeJWT_valid rt s req decoded) by (assumption || reflexivity);
    unfold gets; js; rewrite Hnone; reflexivity.
Qed.

Lemma caller_without_account_is_not_found_witness :
  serve Sample.node (Sample.delete_request (Some "officer") (Some "a2"))
        (mkStore [Sample.captain; Sample.bugler] [Sample.bob] [])
  = (Returned ResValue,
     mkState (mkStore [Sample.captain; Sample.bugler] [Sample.bob] [])
             [mkResponse 404 (Message "User not found")]).
Proof.
  apply (caller_without_account_is_not_found
           Sample.node (mkStore [Sample.captain; Sample.bugler] [Sample.bob] [])
           (Sample.delete_request (Some "officer") (Some "a2")) OpDelete
           (mkClaims "u1" 2000)).
  - split; reflexivity.
  - discriminate.
  - reflexivity.
  - sample_credential "officer".
  - reflexivity.
Defined.

(** X12.  A Reassign request that has passed the credential and role tests is
    answered 400 "Missing appointment ID or account ID" when the account id or
    the appointment id is missing or empty, and 404 "Appointment not found"
    when both are present but the appointment id resolves to nothing; in both
    cases the store is left as it was. *)
Theorem reassign_input_errors
        (rt : Runtime) (s : Store) (req : Request) (decoded : Claims)
        (user : User.doc) :
  requests req OpReassign -> connect_ok rt = true ->
  ValidCredential rt s req decoded -> Caller s decoded user ->
  officer_or_admin (User.account_type user) ->
  (JS.truthy (account_id (body_of req)) = false
   \/ JS.truthy (appointment_id (body_of req)) = false ->
   serve rt req s
   = (Returned ResValue,
      mkState s [mkResponse 400 (Message "Missing appointment ID or account ID")]))
  /\ (forall account aid,
         present (account_id (body_of req)) account ->
         present (appointment_id (body_of req)) aid ->
         Appointment.findById aid (appointments s) = None ->
         serve rt req s
         = (Returned ResValue,
            mkState s [mkResponse 404 (Message "Appointment not found")])).
Proof.
  intros Hreq Hconn Hcred Hcaller Hrole.
  split; [intros Hmissing | intros account aid Haccount Haid Hnone];
    unfold serve; rewrite (module_exports_dispatch rt req OpReassign) by assumption;
    unfold try_catch, operation, update_appointment, bind;
    rewrite (decodeJWT_valid rt s req decoded) by (assumption || reflexivity);
    unfold gets; js; rewrite Hcaller, (checkAuthorization_pass rt _ _ Hrole); js.
  - assert (Hcheck : (negb (JS.truthy (account_id (body_of req)))
                      || negb (JS.truthy (appointment_id (body_of req))))%bool
                     = true).
    { destruct Hmissing as [H | H]; rewrite H;
        [reflexivity | apply orb_true_r]. }
    rewrite Hcheck. reflexivity.
  - destruct (truthy_present _ _ Haccount) as [Ha1 _].
    destruct (truthy_present _ _ Haid) as [Hi1 Hi2].
    rewrite Ha1, Hi1, Hi2. js. rewrite Hnone. reflexivity.
Qed.

Lemma reassign_input_errors_witness :
  serve Sample.node
        (Sample.update_request (Some "officer")
           (mkBody None None (Some "u2") (Some "a7")))
        Sample.db
  = (Returned ResValue,
     mkState Sample.db [mkResponse 404 (Message "Appointment not found")]).
Proof.
  apply (reassign_input_errors
           Sample.node Sample.db
           (Sample.update_request (Some "officer")
              (mkBody None None (Some "u2") (Some "a7")))
           (mkClaims "u1" 2000) Sample.alice) with (account := "u2") (aid := "a7").
  - split; reflexivity.
  - reflexivity.
  - sample_credential "officer".
  - reflexivity.
  - left; reflexivity.
  - split; [reflexivity | discriminate].
  - split; [reflexivity | discriminate].
  - reflexivity.
Defined.

(** X13.  A Delete request that has passed the credential and role tests is
    answered 400 "Missing appointment ID" when the query carries no id (a
    body is not looked at), and 404 "Appointment not found" when the id
    resolves to nothing; in both cases the store is left as it was. *)
Theorem delete_input_errors
        (rt : Runtime) (s : Store) (req : Request) (decoded : Claims)
        (user : User.doc) :
  requests req OpDelete -> connect_ok rt = true ->
  ValidCredential rt s req decoded -> Caller s decoded user ->
  officer_or_admin (User.account_type user) ->
  (JS.truthy (query_id req) = false ->
   serve rt req s
   = (Returned ResValue,
      mkState s [mkResponse 400 (Message "Missing appointment ID")]))
  /\ (forall aid,
         present (query_id req) aid ->
         Appointment.findById aid (appointments s) = None ->
         serve rt req s
         = (Returned ResValue,
            mkState s [mkResponse 404 (Message "Appointment not found")])).
Proof.
  intros Hreq Hconn Hcred Hcaller Hrole.
  split; [intros Hmissing | intros aid Haid Hnone];
    unfold serve; rewrite (module_exports_dispatch rt req OpDelete) by assumption;
    unfold try_catch, operation, delete_appointment, bind;
    rewrite (decodeJWT_valid rt s req decoded) by (assumption || reflexivity);
    unfold gets; js; rewrite Hcaller, (checkAuthorization_pass rt _ _ Hrole); js.
  - rewrite Hmissing. reflexivity.
  - destruct (truthy_present _ _ Haid) as [H1 H2]. rewrite H1, H2. js.
    rewrite Hnone. reflexivity.
Qed.

Lemma delete_input_errors_witness :
  serve Sample.node
        (mkRequest "DELETE" (Some "/delete_appointment") (Some "officer")
                   (Some (mkBody None None None (Some "a2"))) None)
        Sample.db
  = (Returned ResValue,
     mkState Sample.db [mkResponse 400 (Message "Missing appointment ID")]).
Proof.
  apply (delete_input_errors
           Sample.node Sample.db
           (mkRequest "DELETE" (Some "/delete_appointment") (Some "officer")
                      (Some (mkBody None None None (Some "a2"))) None)
           (mkClaims "u1" 2000) Sample.alice).
  - split; reflexivity.
  - reflexivity.
  - sample_credential "officer".
  - reflexivity.
  - left; reflexivity.
  - reflexivity.
Defined.

(** ** The calls on the response object *)

Ltac answer_leaf :=
  unfold answered_well; cbn [fst snd res_calls]; split;
  [ repeat (apply Forall_cons; [simpl; auto 10|]); apply Forall_nil
  | intros ?; first [ exact I | simpl; lia | congruence ] ].

Lemma list_answered_well (rt : Runtime) (req : Request) (s : Store) :
  answered_well rt (try_catch (get_appointments rt req) handler_catch
                              (mkState s [])).
Proof.
  unfold get_appointments, handler_catch, try_catch, bind, gets, ret, throw.
  rewrite decodeJWT_fresh.
  destruct (spec_validate rt (tokens s) (cookie_token req));
    rewrite for_of_map; unfold res_status_json; walk; answer_leaf.
Qed.

Lemma create_answered_well (rt : Runtime) (req : Request) (s : Store) :
  answered_well rt (try_catch (create_appointment rt req) handler_catch
                              (mkState s [])).
Proof.
  unfold_case. rewrite decodeJWT_fresh.
  destruct (spec_validate rt (tokens s) (cookie_token req));
    unfold res_status_json; walk; answer_leaf.
Qed.

Lemma update_answered_well (rt : Runtime) (req : Request) (s : Store) :
  answered_well rt (try_catch (update_appointment rt req) handler_catch
                              (mkState s [])).
Proof.
  unfold_case. rewrite decodeJWT_fresh.
  destruct (spec_validate rt (tokens s) (cookie_token req));
    unfold res_status_json; walk; answer_leaf.
Qed.

Lemma delete_answered_well (rt : Runtime) (req : Request) (s : Store) :
  answered_well rt (try_catch (delete_appointment rt req) handler_catch
                              (mkState s [])).
Proof.
  unfold_case. rewrite decodeJWT_fresh.
  destruct (spec_validate rt (tokens s) (cookie_token req));
    unfold res_status_json; walk; answer_leaf.
Qed.

Lemma serve_answered_well (rt : Runtime) (req : Request) (s : Store) :
  answered_well rt (serve rt req s).
Proof.
  unfold serve, module_exports.
  destruct (String.eqb (method req) "OPTIONS");
    [unfold res_status_end; answer_leaf|].
  destruct (JS.truthy (x_route req)) eqn:Hroute.
  2: { unfold try_catch, handler_try. rewrite Hroute.
       unfold res_status_json. walk. answer_leaf. }
  destruct (connect_ok rt) eqn:Hconn.
  2: { unfold try_catch, handler_try, connectToDatabase, bind, throw, handler_catch.
       rewrite Hroute, Hconn. walk. answer_leaf. }
  assert (Hswitch : try_catch (handler_try rt req) handler_catch (mkState s [])
                    = try_catch (switch rt req) handler_catch (mkState s [])).
  { unfold try_catch. now rewrite handler_try_routed. }
  rewrite Hswitch. clear Hswitch. unfold switch.
  destruct (String.eqb (routeKey req) "GET /get_appointments");
    [apply list_answered_well|].
  destruct (String.eqb (routeKey req) "POST /create_appointment");
    [apply create_answered_well|].
  destruct (String.eqb (routeKey req) "PUT /update_appointment");
    [apply update_answered_well|].
  destruct (String.eqb (routeKey req) "DELETE /delete_appointment");
    [apply delete_answered_well|].
  unfold try_catch, res_status_json. walk. answer_leaf.
Qed.

(** X14.  On a runtime whose [res] throws once a response has been sent (as
    Node does), a handler that returns has requested one response at most:
    whenever a second response is requested the handler does not return. *)
Theorem a_returning_handler_answered_at_most_once
        (rt : Runtime) (req : Request) (s : Store) (v : Value) (st' : State) :
  json_throws_once_sent rt = true ->
  serve rt req s = (Returned v, st') ->
  (length (res_calls st') <= 1)%nat.
Proof.
  intros Hthrows Hreturned.
  destruct (serve_answered_well rt req s) as [_ Honce].
  specialize (Honce Hthrows). rewrite Hreturned in Honce. exact Honce.
Qed.

Lemma a_returning_handler_answered_at_most_once_witness :
  (length (res_calls
             (mkState Sample.db [mkResponse 403 (Message "Invalid token type")]))
   <= 1)%nat.
Proof.
  apply (a_returning_handler_answered_at_most_once
           Sample.node (Sample.delete_request (Some "boy") (Some "a2")) Sample.db
           Undefined).
  - reflexivity.
  - reflexivity.
Defined.

(** X15.  Whatever the request and the runtime, every response the handler
    requests has status 200, 201, 400, 401, 403 or 404: it never answers
    500. *)
Theorem the_handler_never_answers_500
        (rt : Runtime) (req : Request) (s : Store) :
  Forall (fun r => In (status r) answer_statuses /\ status r <> 500)
         (res_calls (snd (serve rt req s))).
Proof.
  destruct (serve_answered_well rt req s) as [Hknown _].
  apply Forall_impl with (2 := Hknown). intros r Hin. split; [exact Hin|].
  intros H500. rewrite H500 in Hin. simpl in Hin.
  repeat (destruct Hin as [Hin | Hin]; [discriminate Hin|]). exact Hin.
Qed.

(** ** How requests compose *)

Lemma serve_create (rt : Runtime) (s : Store) (req : Request) (decoded : Claims)
      (user : User.doc) :
  requests req OpCreate -> connect_ok rt = true ->
  ValidCredential rt s req decoded -> Caller s decoded user ->
  officer_or_admin (User.account_type user) ->
  JS.truthy (appointment_name (body_of req)) = true ->
  JS.truthy (account_type (body_of req)) = true ->
  JS.truthy (account_id (body_of req)) = true ->
  serve rt req s
  = (Returned ResValue,
     mkState (created rt req s)
             [mkResponse 201 (Message "Appointment created successfully")]).
Proof.
  intros Hreq Hconn Hcred Hcaller Hrole Hn Ht Ha. unfold serve.
  rewrite (module_exports_dispatch rt req OpCreate) by assumption.
  unfold try_catch, operation, create_appointment, bind.
  rewrite (decodeJWT_valid rt s req decoded) by (assumption || reflexivity).
  unfold gets. js. rewrite Hcaller, (checkAuthorization_pass rt _ _ Hrole).
  js. rewrite Hn, Ht, Ha. reflexivity.
Qed.

Lemma serve_list (rt : Runtime) (s : Store) (req : Request) (decoded : Claims) :
  requests req OpList -> connect_ok rt = true ->
  ValidCredential rt s req decoded ->
  serve rt req s
  = (Returned ResValue,
     mkState s [mkResponse 200
                  (Items (map (list_item (users s)) (appointments s)))]).
Proof.
  intros Hreq Hconn Hcred. unfold serve.
  rewrite (module_exports_dispatch rt req OpList) by assumption.
  unfold try_catch, operation, get_appointments, bind.
  rewrite (decodeJWT_valid rt s req decoded) by (assumption || reflexivity).
  unfold gets, Appointment.find. js. rewrite for_of_map. reflexivity.
Qed.

Lemma serve_delete (rt : Runtime) (s : Store) (req : Request) (decoded : Claims)
      (user : User.doc) :
  requests req OpDelete -> connect_ok rt = true ->
  ValidCredential rt s req decoded -> Caller s decoded user ->
  officer_or_admin (User.account_type user) ->
  JS.truthy (query_id req) = true ->
  serve rt req s
  = match Appointment.findById (get (query_id req)) (appointments s) with
    | None =>
        (Returned ResValue,
         mkState s [mkResponse 404 (Message "Appointment not found")])
    | Some a =>
        if JS.includes protected_names
                       (JS.toLowerCase (Appointment.appointment_name a))
        then (Returned ResValue,
              mkState s [mkResponse 403
                           (Message "Core appointments cannot be deleted")])
        else (Returned ResValue,
              mkState (deleted req s)
                      [mkResponse 200 (Message "Appointment deleted successfully")])
    end.
Proof.
  intros Hreq Hconn Hcred Hcaller Hrole Hid. unfold serve.
  rewrite (module_exports_dispatch rt req OpDelete) by assumption.
  unfold try_catch, operation, delete_appointment, bind.
  rewrite (decodeJWT_valid rt s req decoded) by (assumption || reflexivity).
  unfold gets. js. rewrite Hcaller, (checkAuthorization_pass rt _ _ Hrole).
  js. rewrite Hid. js.
  destruct (Appointment.findById (get (query_id req)) (appointments s));
    [|reflexivity].
  destruct (JS.includes protected_names _); reflexivity.
Qed.

(** The items of a List do not depend on the denormalized appointment names
    of the accounts. *)
Lemma list_item_updateOne (i name : string) (c : list User.doc)
      (a : Appointment.doc) :
  list_item (User.updateOne i name c) a = list_item c a.
Proof.
  unfold list_item. destruct (Appointment.account_id a) as [j|];
    [|now rewrite !User_findById_undefined].
  destruct (String.eqb_spec i j) as [<- | Hij].
  - destruct (User.findById (Some i) c) as [u|] eqn:Hu.
    + rewrite (User_findById_updateOne _ _ _ _ Hu). reflexivity.
    + rewrite (User_updateOne_unresolved _ _ _ Hu), Hu. reflexivity.
  - now rewrite User_findById_updateOne_frame.
Qed.

(** X16.  After a Create that succeeds, a List with a valid credential
    returns the items it returned before, in the same order, with one more
    item among them: the item of the new appointment, enriched with the
    target account's display name when the submitted account id resolves.
    The denormalized write of the Create alters no item. *)
Theorem created_appointment_is_listed
        (rt : Runtime) (s : Store) (create list : Request)
        (decoded listing : Claims) (user : User.doc) :
  requests create OpCreate -> connect_ok rt = true ->
  ValidCredential rt s create decoded -> Caller s decoded user ->
  officer_or_admin (User.account_type user) ->
  JS.truthy (appointment_name (body_of create)) = true ->
  JS.truthy (account_type (body_of create)) = true ->
  JS.truthy (account_id (body_of create)) = true ->
  requests list OpList -> ValidCredential rt s list listing ->
  exists before after,
    map (list_item (users s)) (appointments s) = (before ++ after)%list
    /\ serve rt list (store (snd (serve rt create s)))
       = (Returned ResValue,
          mkState
            (store (snd (serve rt create s)))
            [mkResponse 200
               (Items
                  (before
                     ++ list_item (users s)
                          (Appointment.mk
                             (ObjectId rt (appointments s))
                             (get (appointment_name (body_of create)))
                             (get (account_type (body_of create)))
                             (Some (get (account_id (body_of create)))))
                     :: after))]).
Proof.
  intros Hreq Hconn Hcred Hcaller Hrole Hn Ht Ha Hlist Hlisting.
  exists (map (list_item (users s)) (appointments s)), [].
  split; [now rewrite app_nil_r|].
  rewrite (serve_create rt s create decoded user) by assumption. cbn [snd store].
  rewrite (serve_list rt (created rt create s) list listing);
    [|assumption | assumption
     | exact (ValidCredential_tokens rt s (created rt create s) list listing
                                     eq_refl Hlisting)].
  cbn [created users appointments]. rewrite map_app. cbn [map].
  rewrite list_item_updateOne.
  erewrite map_ext; [reflexivity | intros a; apply list_item_updateOne].
Qed.

Lemma created_appointment_is_listed_witness :
  exists before after,
    map (list_item (users Sample.db)) (appointments Sample.db)
    = (before ++ after)%list
    /\ serve Sample.node (Sample.list_request (Some "boy"))
             (store (snd (serve Sample.node
                                (Sample.create_request (Some "officer")
                                   (mkBody (Some "Drummer") (Some "Boy")
                                           (Some "u2") None))
                                Sample.db)))
       = (Returned ResValue,
          mkState
            (store (snd (serve Sample.node
                               (Sample.create_request (Some "officer")
                                  (mkBody (Some "Drummer") (Some "Boy")
                                          (Some "u2") None))
                               Sample.db)))
            [mkResponse 200
               (Items
                  (before
                     ++ list_item (users Sample.db)
                          (Appointment.mk "a3" "Drummer" "Boy" (Some "u2"))
                     :: after))]).
Proof.
  apply (created_appointment_is_listed
           Sample.node Sample.db
           (Sample.create_request (Some "officer")
              (mkBody (Some "Drummer") (Some "Boy") (Some "u2") None))
           (Sample.list_request (Some "boy"))
           (mkClaims "u1" 2000) (mkClaims "u2" 2000) Sample.alice).
  - split; reflexivity.
  - reflexivity.
  - sample_credential "officer".
  - reflexivity.
  - left; reflexivity.
  - reflexivity.
  - reflexivity.
  - reflexivity.
  - split; reflexivity.
  - sample_credential "boy".
Defined.

(** X17.  When no two appointments share an id, a Delete that succeeds is
    final: the id no longer resolves in the store it leaves, and the same
    request sent again is answered 404 "Appointment not found" and changes
    nothing. *)
Theorem deleted_appointment_is_gone
        (rt : Runtime) (s : Store) (req : Request) (decoded : Claims)
        (user : User.doc) (aid : string) (appointment : Appointment.doc) :
  requests req OpDelete -> connect_ok rt = true ->
  ValidCredential rt s req decoded -> Caller s decoded user ->
  officer_or_admin (User.account_type user) ->
  present (query_id req) aid ->
  Appointment.findById aid (appointments s) = Some appointment ->
  ~ protected appointment ->
  NoDup (appointment_ids s) ->
  Appointment.findById aid (appointments (store (snd (serve rt req s)))) = None
  /\ serve rt req (store (snd (serve rt req s)))
     = (Returned ResValue,
        mkState (store (snd (serve rt req s)))
                [mkResponse 404 (Message "Appointment not found")]).
Proof.
  intros Hreq Hconn Hcred Hcaller Hrole Hid Hfind Hfree Hdistinct.
  destruct (truthy_present _ _ Hid) as [Htruthy Hget].
  assert (Hfirst : store (snd (serve rt req s)) = deleted req s).
  { rewrite (serve_delete rt s req decoded user) by assumption.
    rewrite Hget, Hfind.
    destruct (JS.includes protected_names
                (JS.toLowerCase (Appointment.appointment_name appointment)))
             eqn:Hp; [|reflexivity].
    apply includes_In in Hp. contradiction. }
  assert (Hgone : Appointment.findById aid (appointments (deleted req s)) = None).
  { cbn [deleted appointments]. rewrite Hget.
    now apply Appointment_findByIdAndDelete_gone. }
  rewrite Hfirst. split; [exact Hgone|].
  rewrite (serve_delete rt (deleted req s) req decoded user);
    [ rewrite Hget, Hgone; reflexivity
    | assumption | assumption
    | exact (ValidCredential_tokens rt s (deleted req s) req decoded eq_refl Hcred)
    | exact Hcaller | assumption | assumption ].
Qed.

Lemma deleted_appointment_is_gone_witness :
  Appointment.findById "a2"
    (appointments
       (store (snd (serve Sample.node
                          (Sample.delete_request (Some "officer") (Some "a2"))
                          Sample.db))))
  = None
  /\ serve Sample.node (Sample.delete_request (Some "officer") (Some "a2"))
           (store (snd (serve Sample.node
                              (Sample.delete_request (Some "officer") (Some "a2"))
                              Sample.db)))
     = (Returned ResValue,
        mkState
          (store (snd (serve Sample.node
                             (Sample.delete_request (Some "officer") (Some "a2"))
                             Sample.db)))
          [mkResponse 404 (Message "Appointment not found")]).
Proof.
  apply (deleted_appointment_is_gone
           Sample.node Sample.db
           (Sample.delete_request (Some "officer") (Some "a2"))
           (mkClaims "u1" 2000) Sample.alice "a2" Sample.bugler).
  - split; reflexivity.
  - reflexivity.
  - sample_credential "officer".
  - reflexivity.
  - left; reflexivity.
  - split; [reflexivity | discriminate].
  - reflexivity.
  - unfold protected. simpl. intuition discriminate.
  - repeat constructor; simpl; intuition discriminate.
Defined.

(** X18.  A Create that succeeds writes to one account at most, the first one
    the submitted account id resolves to: every other account id resolves to
    the same document as before, and when the submitted id resolves to no
    account the appointment is inserted all the same, with its dangling
    account id, and no account is changed. *)
Theorem create_writes_to_the_target_account_only
        (rt : Runtime) (s : Store) (req : Request) (decoded : Claims)
        (user : User.doc) :
  requests req OpCreate -> connect_ok rt = true ->
  ValidCredential rt s req decoded -> Caller s decoded user ->
  officer_or_admin (User.account_type user) ->
  JS.truthy (appointment_name (body_of req)) = true ->
  JS.truthy (account_type (body_of req)) = true ->
  JS.truthy (account_id (body_of req)) = true ->
  (forall other,
      other <> get (account_id (body_of req)) ->
      User.findById (Some other) (users (store (snd (serve rt req s))))
      = User.findById (Some other) (users s))
  /\ (User.findById (Some (get (account_id (body_of req)))) (users s) = None ->
      users (store (snd (serve rt req s))) = users s
      /\ appointments (store (snd (serve rt req s)))
         = (appointments s
              ++ [Appointment.mk (ObjectId rt (appointments s))
                                 (get (appointment_name (body_of req)))
                                 (get (account_type (body_of req)))
                                 (Some (get (account_id (body_of req))))])%list).
Proof.
  intros Hreq Hconn Hcred Hcaller Hrole Hn Ht Ha.
  rewrite (serve_create rt s req decoded user) by assumption.
  cbn [snd store created users appointments]. split.
  - intros other Hother. apply User_findById_updateOne_frame. congruence.
  - intros Hnone. split; [now apply User_updateOne_unresolved | reflexivity].
Qed.

Lemma create_writes_to_the_target_account_only_witness :
  users (store (snd (serve Sample.node
                           (Sample.create_request (Some "officer")
                              (mkBody (Some "Drummer") (Some "Boy")
                                      (Some "u9") None))
                           Sample.db)))
  = users Sample.db
  /\ appointments
       (store (snd (serve Sample.node
                          (Sample.create_request (Some "officer")
                             (mkBody (Some "Drummer") (Some "Boy")
                                     (Some "u9") None))
                          Sample.db)))
     = [Sample.captain; Sample.bugler;
        Appointment.mk "a3" "Drummer" "Boy" (Some "u9")].
Proof.
  apply (create_writes_to_the_target_account_only
           Sample.node Sample.db
           (Sample.create_request (Some "officer")
              (mkBody (Some "Drummer") (Some "Boy") (Some "u9") None))
           (mkClaims "u1" 2000) Sample.alice).
  - split; reflexivity.
  - reflexivity.
  - sample_credential "officer".
  - reflexivity.
  - left; reflexivity.
  - reflexivity.
  - reflexivity.
  - reflexivity.
  - reflexivity.
Defined.

Lemma serve_update (rt : Runtime) (s : Store) (req : Request) (decoded : Claims)
      (user : User.doc) (a : Appointment.doc) :
  requests req OpReassign -> connect_ok rt = true ->
  ValidCredential rt s req decoded -> Caller s decoded user ->
  officer_or_admin (User.account_type user) ->
  JS.truthy (account_id (body_of req)) = true ->
  JS.truthy (appointment_id (body_of req)) = true ->
  Appointment.findById (get (appointment_id (body_of req))) (appointments s)
  = Some a ->
  serve rt req s
  = (Returned ResValue,
     mkState (reassigned req s)
             [mkResponse 200 (Message "Appointment updated successfully")]).
Proof.
  intros Hreq Hconn Hcred Hcaller Hrole Ha Hi Hfind. unfold serve.
  rewrite (module_exports_dispatch rt req OpReassign) by assumption.
  unfold try_catch, operation, update_appointment, bind.
  rewrite (decodeJWT_valid rt s req decoded) by (assumption || reflexivity).
  unfold gets. js. rewrite Hcaller, (checkAuthorization_pass rt _ _ Hrole).
  js. rewrite Ha, Hi. js. rewrite Hfind. reflexivity.
Qed.

(** X19.  After a Reassign that succeeds, a List with a valid credential
    returns the items it returned before, in the same order, except for the
    item of the reassigned appointment, which is now built from the new
    account id: enriched with the new holder's display name when that id
    resolves, and left with the bare id when it does not (the handler does
    not check that the new holder exists). *)
Theorem reassigned_appointment_is_listed_with_its_new_holder
        (rt : Runtime) (s : Store) (reassign list : Request)
        (decoded listing : Claims) (user : User.doc) (a : Appointment.doc) :
  requests reassign OpReassign -> connect_ok rt = true ->
  ValidCredential rt s reassign decoded -> Caller s decoded user ->
  officer_or_admin (User.account_type user) ->
  JS.truthy (account_id (body_of reassign)) = true ->
  JS.truthy (appointment_id (body_of reassign)) = true ->
  Appointment.findById (get (appointment_id (body_of reassign))) (appointments s)
  = Some a ->
  requests list OpList -> ValidCredential rt s list listing ->
  exists before after,
    appointments s = (before ++ a :: after)%list
    /\ serve rt list (store (snd (serve rt reassign s)))
       = (Returned ResValue,
          mkState
            (store (snd (serve rt reassign s)))
            [mkResponse 200
               (Items
                  (map (list_item (users s)) before
                     ++ list_item (users s)
                          (Appointment.mk
                             (Appointment._id a)
                             (Appointment.appointment_name a)
                             (Appointment.account_type a)
                             (Some (get (account_id (body_of reassign)))))
                     :: map (list_item (users s)) after))]).
Proof.
  intros Hreq Hconn Hcred Hcaller Hrole Ha Hi Hfind Hlist Hlisting.
  destruct (Appointment_findById_split _ _ _ Hfind) as [before [after [Hc Hb]]].
  exists before, after. split; [exact Hc|].
  rewrite (serve_update rt s reassign decoded user a) by assumption.
  cbn [snd store].
  rewrite (serve_list rt (reassigned reassign s) list listing);
    [|assumption | assumption
     | exact (ValidCredential_tokens rt s (reassigned reassign s) list listing
                                     eq_refl Hlisting)].
  cbn [reassigned users appointments]. rewrite Hc.
  rewrite (Appointment_updateOne_split _ _ _ _ _ Hb
             (Appointment_findById_id _ _ _ Hfind)).
  rewrite map_app. reflexivity.
Qed.

Lemma reassigned_appointment_is_listed_with_its_new_holder_witness :
  exists before after,
    appointments Sample.db = (before ++ Sample.bugler :: after)%list
    /\ serve Sample.node (Sample.list_request (Some "boy"))
             (store (snd (serve Sample.node
                                (Sample.update_request (Some "officer")
                                   (mkBody None None (Some "u2") (Some "a2")))
                                Sample.db)))
       = (Returned ResValue,
          mkState
            (store (snd (serve Sample.node
                               (Sample.update_request (Some "officer")
                                  (mkBody None None (Some "u2") (Some "a2")))
                               Sample.db)))
            [mkResponse 200
               (Items
                  (map (list_item (users Sample.db)) before
                     ++ list_item (users Sample.db)
                          (Appointment.mk "a2" "Bugler" "Boy" (Some "u2"))
                     :: map (list_item (users Sample.db)) after))]).
Proof.
  apply (reassigned_appointment_is_listed_with_its_new_holder
           Sample.node Sample.db
           (Sample.update_request (Some "officer")
              (mkBody None None (Some "u2") (Some "a2")))
           (Sample.list_request (Some "boy"))
           (mkClaims "u1" 2000) (mkClaims "u2" 2000) Sample.alice Sample.bugler).
  - split; reflexivity.
  - reflexivity.
  - sample_credential "officer".
  - reflexivity.
  - left; reflexivity.
  - reflexivity.
  - reflexivity.
  - reflexivity.
  - split; reflexivity.
  - sample_credential "boy".
Defined.

(** ** Histories of requests *)

(** X20.  Along any history of requests, whatever their credentials and
    under whatever runtimes they are served: the consumed-token log is never
    written; no account is added or removed and no account's id, display
    name or role changes; and every protected appointment of the initial
    store is still there at the end, with its id, name and account type. *)
Theorem invariants_along_any_history
        (history : list (Runtime * Request)) (s : Store) :
  tokens (serve_all history s) = tokens s
  /\ map identity (users (serve_all history s)) = map identity (users s)
  /\ (forall a,
         In a (appointments s) -> protected a ->
         exists a',
           In a' (appointments (serve_all history s))
           /\ Appointment._id a' = Appointment._id a
           /\ Appointment.appointment_name a' = Appointment.appointment_name a
           /\ Appointment.account_type a' = Appointment.account_type a).
Proof.
  revert s. induction history as [|[rt req] rest IH]; intros s; simpl.
  - repeat split. intros a Hin _. exists a. repeat split. exact Hin.
  - destruct (IH (store (snd (serve rt req s)))) as [Htokens [Husers Hprot]].
    split; [|split].
    + rewrite Htokens. apply serve_tokens.
    + rewrite Husers. apply serve_users_identity.
    + intros a Hin Ha.
      destruct (serve_protected rt req s a Hin Ha) as [a1 [Hin1 [Hid1 [Hn1 Ht1]]]].
      assert (Ha1 : protected a1) by (unfold protected in *; now rewrite Hn1).
      destruct (Hprot a1 Hin1 Ha1) as [a2 [Hin2 [Hid2 [Hn2 Ht2]]]].
      exists a2. repeat split; [exact Hin2 | congruence..].
Qed.

(** X21.  Only the Delete case removes appointments: after a request whose
    route key is not "DELETE /delete_appointment", every appointment of the
    store is still there with its id, its name and its account type, so every
    appointment id is kept and the collection has not shrunk. *)
Theorem only_delete_removes_appointments
        (rt : Runtime) (req : Request) (s : Store) :
  routeKey req <> "DELETE /delete_appointment" ->
  (forall a,
      In a (appointments s) ->
      exists a',
        In a' (appointments (store (snd (serve rt req s))))
        /\ Appointment._id a' = Appointment._id a
        /\ Appointment.appointment_name a' = Appointment.appointment_name a
        /\ Appointment.account_type a' = Appointment.account_type a)
  /\ incl (appointment_ids s) (appointment_ids (store (snd (serve rt req s))))
  /\ (length (appointments s)
      <= length (appointments (store (snd (serve rt req s)))))%nat.
Proof.
  intros Hkey. unfold appointment_ids. destruct (serve_effect rt req s).
  - split; [|split].
    + intros x Hin. exists x. repeat split. exact Hin.
    + apply incl_refl.
    + apply Nat.le_refl.
  - cbn [created appointments]. split; [|split].
    + intros x Hin. exists x. repeat split. apply in_or_app. left. exact Hin.
    + rewrite map_app. apply incl_appl, incl_refl.
    + rewrite length_app. apply Nat.le_add_r.
  - cbn [reassigned appointments]. split; [|split].
    + intros x Hin. now apply Appointment_updateOne_In.
    + rewrite Appointment_updateOne_ids. apply incl_refl.
    + rewrite <- (length_map Appointment._id (Appointment.updateOne _ _ _)),
        Appointment_updateOne_ids, length_map. apply Nat.le_refl.
  - contradiction.
Qed.

Lemma only_delete_removes_appointments_witness :
  incl (appointment_ids Sample.db)
       (appointment_ids
          (store (snd (serve Sample.node
                             (Sample.create_request (Some "officer")
                                (mkBody (Some "Drummer") (Some "Boy") (Some "u2")
                                        None))
                             Sample.db)))).
Proof.
  apply (only_delete_removes_appointments
           Sample.node
           (Sample.create_request (Some "officer")
              (mkBody (Some "Drummer") (Some "Boy") (Some "u2") None))
           Sample.db).
  discriminate.
Defined.
